(** * DRMUtils: mode selection, plane assignment and framebuffer binding

    A shallow embedding of [xbmc/windowing/gbm/drm/DRMUtils.cpp] and the
    properties of its mode selector ([FindPreferredMode],
    [GetResolutionInfo]), its plane resolver ([FindPlanes]) and its
    framebuffer binder ([DrmFbGetFromBo], [DrmFbDestroyCallback]), then of
    the rest of the object: the format helpers ([FourCCWithAlpha],
    [FourCCWithoutAlpha], [FourCCToString]), the search for the display
    pipeline ([FindConnector], [FindEncoder], [FindCrtc]), the session
    ([OpenDrm], [InitDrm], [RestoreOriginalMode], [DestroyDrm]) and the mode
    list ([GetModes], [SetMode], [GetCurrentMode]).

    C++ integers are carried as [Z]; the C type of every field is given where
    the field is declared.  Pointers into the object vectors are carried as
    the object they point to ([None] is [nullptr]); pointers to heap
    allocated [drm_fb] structures are addresses into an explicit heap. *)

From Stdlib Require Import Ascii String DecimalString DecimalNat.
From Stdlib Require Import ZArith List Bool Lia.
From Stdlib Require Import Floats.SpecFloat.
From stdpp Require Import base option list gmap.
Import ListNotations.

Local Open Scope Z_scope.

(** ** Constants of the kernel's DRM interface (drm_mode.h, drm_fourcc.h) *)

Definition DRM_MODE_TYPE_PREFERRED : Z := Z.shiftl 1 3.
Definition DRM_MODE_FLAG_INTERLACE : Z := Z.shiftl 1 4.
Definition DRM_MODE_FLAG_3D_MASK : Z := Z.shiftl 31 14.
Definition DRM_MODE_FLAG_3D_TOP_AND_BOTTOM : Z := Z.shiftl 7 14.
Definition DRM_MODE_FLAG_3D_SIDE_BY_SIDE_HALF : Z := Z.shiftl 8 14.

(** [fourcc_code(a, b, c, d)]: four characters packed little-endian. *)
Definition fourcc_code (a b c d : Z) : Z :=
  Z.lor (Z.lor a (Z.shiftl b 8)) (Z.lor (Z.shiftl c 16) (Z.shiftl d 24)).

(* 'N' 'V' '1' '2' *)
Definition DRM_FORMAT_NV12 : Z := fourcc_code 78 86 49 50.
(* 'X' 'R' '2' '4' *)
Definition DRM_FORMAT_XRGB8888 : Z := fourcc_code 88 82 50 52.
(* 'A' 'R' '2' '4' *)
Definition DRM_FORMAT_ARGB8888 : Z := fourcc_code 65 82 50 52.

(* 0x00ffffffffffffff *)
Definition DRM_FORMAT_MOD_INVALID : Z := 72057594037927935.
Definition DRM_MODE_FB_MODIFIERS : Z := Z.shiftl 1 1.

(** [x & mask] used as a C condition. *)
Definition has_bits (x mask : Z) : bool := negb (Z.land x mask =? 0).

(** ** Outcomes

    A call either returns, or runs into behaviour the language leaves
    undefined; the model records which. *)

Inductive fault : Type :=
  | NullDeref          (* a member is read through a null pointer *)
  | UseAfterFree       (* a [drm_fb] is read or deleted after its [delete] *)
  | IndeterminateRead. (* a member is read before it was assigned *)

Inductive outcome (A : Type) : Type :=
  | Returns (a : A)
  | Undefined (f : fault).
Arguments Returns {A} a.
Arguments Undefined {A} f.

(** ** Raw modes *)

(** [drmModeModeInfo], the fields DRMUtils.cpp reads. *)
Record drmModeModeInfo : Type := {
  clock : Z;      (* uint32_t *)
  hdisplay : Z;   (* uint16_t *)
  vdisplay : Z;   (* uint16_t *)
  vrefresh : Z;   (* uint32_t *)
  flags : Z;      (* uint32_t *)
  type : Z;       (* uint32_t *)
}.

(** ** Floating point

    [float] is IEEE 754 binary32 and [double] binary64, both rounding to
    nearest even; [SpecFloat] gives their operations. *)

Module F32.
Definition prec : Z := 24.
Definition emax : Z := 128.
Definition of_Z (z : Z) : spec_float := binary_normalize prec emax z 0 false.
Definition mul : spec_float -> spec_float -> spec_float := SFmul prec emax.
Definition div : spec_float -> spec_float -> spec_float := SFdiv prec emax.
End F32.

Module F64.
Definition prec : Z := 53.
Definition emax : Z := 1024.
Definition of_Z (z : Z) : spec_float := binary_normalize prec emax z 0 false.
Definition mul : spec_float -> spec_float -> spec_float := SFmul prec emax.
Definition div : spec_float -> spec_float -> spec_float := SFdiv prec emax.
End F64.

(** [static_cast<int>] of a floating value: the fraction is discarded.  The
    cast is undefined on NaN and infinities, which [GetResolutionInfo] never
    produces there; the model gives 0. *)
Definition truncate (x : spec_float) : Z :=
  match x with
  | S754_finite s m e =>
      let a := if 0 <=? e then Z.pos m * 2 ^ e else Z.pos m / 2 ^ (- e) in
      if s then - a else a
  | _ => 0
  end.

(** The value of a finite float as a fraction [(numerator, denominator)]. *)
Definition to_fraction (x : spec_float) : Z * Z :=
  match x with
  | S754_finite s m e =>
      let n := if s then Z.neg m else Z.pos m in
      if 0 <=? e then (n * 2 ^ e, 1) else (n, 2 ^ (- e))
  | _ => (0, 1)
  end.

(** ** GetResolutionInfo *)

(** The [D3DPRESENTFLAG_*] values are defined in windowing/Resolution.h,
    outside DRMUtils.cpp; they are taken as parameters. *)
Class PresentFlags : Type := {
  D3DPRESENTFLAG_INTERLACED : Z;
  D3DPRESENTFLAG_PROGRESSIVE : Z;
  D3DPRESENTFLAG_MODE3DSBS : Z;
  D3DPRESENTFLAG_MODE3DTB : Z;
}.

(** [RESOLUTION_INFO], the fields [GetResolutionInfo] assigns, except the
    display string [strMode]. *)
Record RESOLUTION_INFO : Type := {
  iWidth : Z;               (* int *)
  iHeight : Z;              (* int *)
  iScreenWidth : Z;         (* int *)
  iScreenHeight : Z;        (* int *)
  iSubtitles : Z;           (* int *)
  dwFlags : Z;              (* uint32_t *)
  fPixelRatio : spec_float; (* float *)
  fRefreshRate : spec_float;(* float *)
  bFullScreen : bool;
}.

(** The constant [1000.0f/1001.0f]. *)
Definition ntsc_factor : spec_float := F32.div (F32.of_Z 1000) (F32.of_Z 1001).

(** [iWidth] and [iHeight]: the screen size, capped as the setting
    videoscreen.limitguisize ([limit]) asks. *)
Definition gui_size (limit : Z) (mode : drmModeModeInfo) : Z * Z :=
  let screenWidth := hdisplay mode in
  let screenHeight := vdisplay mode in
  if (limit >? 0) && (screenWidth >? 1920) && (screenHeight >? 1080) then
    match limit with
    | 1 => (1280, 720)
    | 2 => (if vrefresh mode >? 30 then 1280 else 1920,
            if vrefresh mode >? 30 then 720 else 1080)
    | 3 => (1920, 1080)
    | 4 => (if vrefresh mode >? 30 then 1920 else screenWidth,
            if vrefresh mode >? 30 then 1080 else screenHeight)
    | _ => (screenWidth, screenHeight)
    end
  else (screenWidth, screenHeight).

(** [fRefreshRate]. *)
Definition refresh_rate (mode : drmModeModeInfo) : spec_float :=
  if negb (clock mode mod 5 =? 0)
  then F32.mul (F32.of_Z (vrefresh mode)) ntsc_factor
  else F32.of_Z (vrefresh mode).

(** [iSubtitles]: [static_cast<int>(0.965 * res.iHeight)], in [double]. *)
Definition subtitles (height : Z) : Z :=
  truncate (F64.mul (F64.div (F64.of_Z 965) (F64.of_Z 1000)) (F64.of_Z height)).

Section Resolution.
Context `{PresentFlags}.

(** [dwFlags]; [constructed] is the value the constructor of
    [RESOLUTION_INFO] gave the member. *)
Definition present_flags (constructed : Z) (mode : drmModeModeInfo) : Z :=
  if has_bits (flags mode) DRM_MODE_FLAG_3D_MASK then
    if has_bits (flags mode) DRM_MODE_FLAG_3D_TOP_AND_BOTTOM
    then D3DPRESENTFLAG_MODE3DTB
    else if has_bits (flags mode) DRM_MODE_FLAG_3D_SIDE_BY_SIDE_HALF
    then D3DPRESENTFLAG_MODE3DSBS
    else constructed
  else if has_bits (flags mode) DRM_MODE_FLAG_INTERLACE
  then D3DPRESENTFLAG_INTERLACED
  else D3DPRESENTFLAG_PROGRESSIVE.

(** [res] is the [RESOLUTION_INFO] as its default constructor leaves it
    (Resolution.h, outside DRMUtils.cpp); [limit] is the value of the setting
    videoscreen.limitguisize. *)
Definition GetResolutionInfo (res : RESOLUTION_INFO) (limit : Z)
    (mode : drmModeModeInfo) : RESOLUTION_INFO :=
  {| iScreenWidth := hdisplay mode;
     iScreenHeight := vdisplay mode;
     iWidth := (gui_size limit mode).1;
     iHeight := (gui_size limit mode).2;
     fRefreshRate := refresh_rate mode;
     iSubtitles := subtitles (gui_size limit mode).2;
     fPixelRatio := F32.of_Z 1;
     bFullScreen := true;
     dwFlags := present_flags (dwFlags res) mode |}.
End Resolution.

(** ** Object wrappers *)

(** Modelled from the spec: [CDRMPlane] is declared in DRMPlane.h, outside
    DRMUtils.cpp.  A plane has an identity, the bitmask of the CRTCs it can
    attach to, the pixel formats it supports, and the format it is currently
    set to ([GetFormat]). *)
Record CDRMPlane : Type := {
  GetPlaneId : Z;              (* uint32_t *)
  plane_possible_crtcs : Z;    (* GetPossibleCrtcs(), uint32_t *)
  formats : list Z;            (* uint32_t each *)
  GetFormat : Z;               (* uint32_t *)
}.

(** Modelled from the spec: [CDRMPlane::SupportsFormat] is defined outside
    DRMUtils.cpp; a format is supported when it is among the plane's supported
    pixel formats. *)
Definition SupportsFormat (plane : CDRMPlane) (format : Z) : bool :=
  existsb (Z.eqb format) (formats plane).

(** Modelled from the spec: [CDRMCrtc] is declared in DRMCrtc.h, outside
    DRMUtils.cpp; of a CRTC the functions below read the identity only. *)
Record CDRMCrtc : Type := {
  crtc_id : Z;                 (* GetCrtcId(), uint32_t *)
}.

(** Modelled from the spec: [CDRMEncoder] is declared in DRMEncoder.h, outside
    DRMUtils.cpp; an encoder has the identity of the CRTC it is bound to and
    the bitmask of the CRTCs it can drive. *)
Record CDRMEncoder : Type := {
  encoder_crtc_id : Z;         (* GetCrtcId(), uint32_t *)
  encoder_possible_crtcs : Z;  (* GetPossibleCrtcs(), uint32_t *)
}.

(** Modelled from the spec: [CDRMConnector] is declared in DRMConnector.h,
    outside DRMUtils.cpp; [GetModesCount] and [GetModeForIndex] read the
    connector's ordered list of modes. *)
Record CDRMConnector : Type := {
  modes : list drmModeModeInfo;   (* GetModesCount(), GetModeForIndex(i) *)
}.

(** The members of [CDRMUtils] that the functions below read or assign.
    [m_connector] and [m_encoder] are set by [FindConnector] and
    [FindEncoder] before those functions run; the record carries the objects
    they point to.  [m_mode] points into the connector's mode list and is
    carried as the index of the mode. *)
Record CDRMUtils : Type := {
  m_fd : Z;                           (* int *)
  m_connector : CDRMConnector;
  m_encoder : CDRMEncoder;
  m_crtcs : list (option CDRMCrtc);   (* vector of unique_ptr<CDRMCrtc> *)
  m_planes : list CDRMPlane;          (* vector of unique_ptr<CDRMPlane> *)
  m_crtc : option CDRMCrtc;
  m_video_plane : option CDRMPlane;
  m_gui_plane : option CDRMPlane;
  m_mode : option nat;
}.

Definition set_m_mode (this : CDRMUtils) (mode : option nat) : CDRMUtils :=
  {| m_fd := m_fd this;
     m_connector := m_connector this; m_encoder := m_encoder this;
     m_crtcs := m_crtcs this; m_planes := m_planes this;
     m_crtc := m_crtc this; m_video_plane := m_video_plane this;
     m_gui_plane := m_gui_plane this; m_mode := mode |}.

Definition set_planes (this : CDRMUtils) (crtc : option CDRMCrtc)
    (video gui : option CDRMPlane) : CDRMUtils :=
  {| m_fd := m_fd this;
     m_connector := m_connector this; m_encoder := m_encoder this;
     m_crtcs := m_crtcs this; m_planes := m_planes this;
     m_crtc := crtc; m_video_plane := video;
     m_gui_plane := gui; m_mode := m_mode this |}.

(** ** FindPreferredMode *)

(** [hdisplay * vdisplay]: both operands are promoted to [int].  A product
    beyond [INT_MAX] overflows, which the language leaves undefined; the model
    wraps it to 32 bits, two's complement, as the target machines do. *)
Definition wrap_int (z : Z) : Z := (z + 2 ^ 31) mod 2 ^ 32 - 2 ^ 31.

Definition current_area (mode : drmModeModeInfo) : Z :=
  wrap_int (hdisplay mode * vdisplay mode).

Definition is_preferred (mode : drmModeModeInfo) : bool :=
  has_bits (type mode) DRM_MODE_TYPE_PREFERRED.

(** The [for] loop, from index [i] on, over the modes not yet visited;
    [mode] is [m_mode] and [area] the loop's second variable. *)
Fixpoint FindPreferredMode_loop (rest : list drmModeModeInfo) (i : nat)
    (mode : option nat) (area : Z) : option nat :=
  match rest with
  | [] => mode
  | current_mode :: rest' =>
      if is_preferred current_mode then Some i
      else if current_area current_mode >? area
      then FindPreferredMode_loop rest' (S i) (Some i)
             (current_area current_mode)
      else FindPreferredMode_loop rest' (S i) mode area
  end.

Definition FindPreferredMode (this : CDRMUtils) : bool * CDRMUtils :=
  let mode :=
    FindPreferredMode_loop (modes (m_connector this)) 0%nat (m_mode this) 0 in
  match mode with
  | None => (false, set_m_mode this mode)
  | Some _ => (true, set_m_mode this mode)
  end.

(** ** FindPlanes *)

(** [std::find_if]: the position of the first element that satisfies [P];
    the length of the list stands for the end iterator. *)
Fixpoint find_if {A : Type} (P : A -> bool) (l : list A) : nat :=
  match l with
  | [] => 0%nat
  | x :: l' => if P x then 0%nat else S (find_if P l')
  end.

(** [plane->GetPossibleCrtcs() & (1 << i)].  The kernel reports at most 32
    CRTCs, one per bit of the mask; from [i = 32] on the shift is undefined
    in C++, and no bit of a 32-bit mask is met here. *)
Definition on_crtc (plane : CDRMPlane) (i : nat) : bool :=
  has_bits (plane_possible_crtcs plane) (Z.shiftl 1 (Z.of_nat i)).

Definition is_video_plane (i : nat) (plane : CDRMPlane) : bool :=
  if on_crtc plane i then SupportsFormat plane DRM_FORMAT_NV12 else false.

Definition is_gui_plane (i : nat) (videoPlaneId : Z) (plane : CDRMPlane)
    : bool :=
  if on_crtc plane i
  then negb (GetPlaneId plane =? videoPlaneId)
       && ((videoPlaneId =? 0) || SupportsFormat plane DRM_FORMAT_ARGB8888)
       && SupportsFormat plane DRM_FORMAT_XRGB8888
  else false.

(** The [for] loop over the CRTCs from index [i] on.  An iterator [it] is
    read with [m_planes this !! it].  The code tests [videoPlane->get()] and
    [guiPlane->get()] for null; on the end iterator that reads past the last
    element, which the language leaves undefined, and the model reads null
    there, the way these tests take it. *)
Fixpoint FindPlanes_loop (crtcs : list (option CDRMCrtc)) (i : nat)
    (this : CDRMUtils) : CDRMUtils :=
  match crtcs with
  | [] => this
  | None :: crtcs' => FindPlanes_loop crtcs' (S i) this
  | Some crtc :: crtcs' =>
      let videoPlane := find_if (is_video_plane i) (m_planes this) in
      let videoPlaneId :=
        match m_planes this !! videoPlane with
        | Some plane => GetPlaneId plane
        | None => 0
        end in
      let guiPlane := find_if (is_gui_plane i videoPlaneId) (m_planes this) in
      match m_planes this !! videoPlane, m_planes this !! guiPlane with
      | Some video, Some gui =>
          set_planes this (Some crtc) (Some video) (Some gui)
      | _, Some gui =>
          match m_crtc this with
          | None =>
              if encoder_crtc_id (m_encoder this) =? crtc_id crtc
              then FindPlanes_loop crtcs' (S i)
                     (set_planes this (Some crtc) (m_video_plane this)
                        (Some gui))
              else FindPlanes_loop crtcs' (S i) this
          | Some _ => FindPlanes_loop crtcs' (S i) this
          end
      | _, None => FindPlanes_loop crtcs' (S i) this
      end
  end.

(** After the loop the log line reads [m_gui_plane->GetPlaneId()]; then the
    function returns [true]. *)
Definition FindPlanes (this : CDRMUtils) : outcome (bool * CDRMUtils) :=
  let this' := FindPlanes_loop (m_crtcs this) 0%nat this in
  match m_gui_plane this' with
  | None => Undefined NullDeref
  | Some _ => Returns (true, this')
  end.

(** ** Framebuffer binder *)

Definition addr : Type := positive.

(** Modelled from the spec: [struct drm_fb] is declared in DRMUtils.h, outside
    DRMUtils.cpp; a framebuffer has a back-reference to its buffer, a
    driver-assigned identity and a pixel format.  [new drm_fb] leaves
    [fb_id] indeterminate, which is [None] here. *)
Record drm_fb : Type := {
  bo : Z;                  (* struct gbm_bo*, the identity of the buffer *)
  fb_id : option Z;        (* uint32_t *)
  format : Z;              (* uint32_t *)
}.

(** The function [gbm_bo_set_user_data] registers for the release of the
    buffer; DRMUtils.cpp registers one only. *)
Inductive destroy_user_data : Type :=
  | DrmFbDestroyCallback_fn.

(** A buffer object of libgbm, as its accessors show it. *)
Record gbm_bo : Type := {
  bo_ident : Z;                  (* the address of the object *)
  bo_device_fd : Z;              (* gbm_device_get_fd(gbm_bo_get_device(bo)) *)
  bo_width : Z;                  (* gbm_bo_get_width *)
  bo_height : Z;                 (* gbm_bo_get_height *)
  bo_handle : Z;                 (* gbm_bo_get_handle(bo).u32 *)
  bo_stride : Z;                 (* gbm_bo_get_stride *)
  bo_planes : list (Z * Z * Z);  (* handle, stride, offset of each plane *)
  bo_modifier : Z;               (* gbm_bo_get_modifier, uint64_t *)
  bo_user_data : option addr;    (* gbm_bo_get_user_data *)
  bo_destroy : option destroy_user_data;
}.

Definition gbm_bo_set_user_data (b : gbm_bo) (data : addr)
    (destroy : destroy_user_data) : gbm_bo :=
  {| bo_ident := bo_ident b; bo_device_fd := bo_device_fd b;
     bo_width := bo_width b; bo_height := bo_height b;
     bo_handle := bo_handle b; bo_stride := bo_stride b;
     bo_planes := bo_planes b; bo_modifier := bo_modifier b;
     bo_user_data := Some data; bo_destroy := Some destroy |}.

(** The requests sent to the driver through libdrm. *)
Inductive drm_call : Type :=
  | drmModeAddFB2WithModifiers
      (fd width height pixel_format : Z)
      (handles strides offsets modifiers : list Z) (fb_flags : Z)
  | drmModeAddFB2
      (fd width height pixel_format : Z)
      (handles strides offsets : list Z) (fb_flags : Z)
  | drmModeRmFB (fd buffer_id : Z).

(** What lies outside the object: the live [drm_fb] allocations and the
    requests made to the driver so far, oldest first. *)
Record world : Type := {
  heap : gmap addr drm_fb;
  calls : list drm_call;
}.

Definition request (w : world) (c : drm_call) : world :=
  {| heap := heap w; calls := calls w ++ [c] |}.

Definition delete_fb (a : addr) (w : world) : world :=
  {| heap := delete a (heap w); calls := calls w |}.

Definition store_fb (a : addr) (fb : drm_fb) (w : world) : world :=
  {| heap := <[a := fb]> (heap w); calls := calls w |}.

(** [new drm_fb]: an address that holds no live [drm_fb]. *)
Definition new_drm_fb (w : world) : addr := fresh (dom (heap w)).

(** [DrmFbDestroyCallback(bo, data)]. *)
Definition DrmFbDestroyCallback (b : gbm_bo) (data : addr) (w : world)
    : outcome world :=
  match heap w !! data with
  | None => Undefined UseAfterFree
  | Some fb =>
      match fb_id fb with
      | None => Undefined IndeterminateRead
      | Some id =>
          let w1 :=
            if id >? 0
            then request w (drmModeRmFB (bo_device_fd b) id)
            else w in
          Returns (delete_fb data w1)
      end
  end.

(** An array of four [uint32_t] or [uint64_t], zero initialised, whose first
    entries are then assigned from [l]; libgbm buffers have at most four
    planes. *)
Definition array4 (l : list Z) : list Z := take 4 (l ++ [0; 0; 0; 0]).

Section Binder.
(** Whether the build defines [HAS_GBM_MODIFIERS]. *)
Variable HAS_GBM_MODIFIERS : bool.

(** The driver: its answer to a registration request, given the requests
    it has served before.  [Some id] is libdrm returning 0 after storing
    the new identity through [buf_id]; [None] is libdrm returning a
    negative errno, with nothing stored. *)
Variable driver : list drm_call -> drm_call -> option Z.

Definition handles_of (b : gbm_bo) : list Z :=
  if HAS_GBM_MODIFIERS
  then array4 (map (fun p => p.1.1) (bo_planes b))
  else array4 [bo_handle b].

Definition strides_of (b : gbm_bo) : list Z :=
  if HAS_GBM_MODIFIERS
  then array4 (map (fun p => p.1.2) (bo_planes b))
  else array4 [bo_stride b].

Definition offsets_of (b : gbm_bo) : list Z :=
  if HAS_GBM_MODIFIERS
  then array4 (map (fun p => p.2) (bo_planes b))
  else array4 [].

Definition modifiers_of (b : gbm_bo) : list Z :=
  if HAS_GBM_MODIFIERS
  then array4 (map (fun _ => bo_modifier b) (bo_planes b))
  else array4 [].

Definition flags_of (b : gbm_bo) : Z :=
  let modifiers0 := nth 0 (modifiers_of b) 0 in
  if negb (modifiers0 =? 0) && negb (modifiers0 =? DRM_FORMAT_MOD_INVALID)
  then Z.lor 0 DRM_MODE_FB_MODIFIERS
  else 0.

Definition AddFB2WithModifiers_call (fd fmt : Z) (b : gbm_bo) : drm_call :=
  drmModeAddFB2WithModifiers fd (bo_width b) (bo_height b) fmt
    (handles_of b) (strides_of b) (offsets_of b) (modifiers_of b) (flags_of b).

Definition AddFB2_call (fd fmt : Z) (b : gbm_bo) : drm_call :=
  drmModeAddFB2 fd (bo_width b) (bo_height b) fmt
    (handles_of b) (strides_of b) (offsets_of b) (flags_of b).

(** The first block of [DrmFbGetFromBo]: the framebuffer the buffer
    carries is returned when its format is the GUI plane's, and torn down
    otherwise. *)
Inductive cached : Type :=
  | Hit (fb : addr)
  | Miss (w : world).

Definition lookup_cached (this : CDRMUtils) (b : gbm_bo) (w : world)
    : outcome cached :=
  match bo_user_data b with
  | None => Returns (Miss w)
  | Some fb =>
      match m_gui_plane this with
      | None => Undefined NullDeref
      | Some gui =>
          match heap w !! fb with
          | None => Undefined UseAfterFree
          | Some old =>
              if GetFormat gui =? format old then Returns (Hit fb)
              else
                match DrmFbDestroyCallback b fb w with
                | Returns w1 => Returns (Miss w1)
                | Undefined f => Undefined f
                end
          end
      end
  end.

(** The rest of [DrmFbGetFromBo]: a new [drm_fb] is allocated and
    registered. *)
Definition register (this : CDRMUtils) (b : gbm_bo) (w : world)
    : outcome (option addr * gbm_bo * world) :=
  let fb := new_drm_fb w in
  match m_gui_plane this with
  | None => Undefined NullDeref
  | Some gui =>
      let fmt := GetFormat gui in
      let w1 :=
        store_fb fb {| bo := bo_ident b; fb_id := None; format := fmt |} w in
      let attach id w' :=
        Returns (Some fb,
                 gbm_bo_set_user_data b fb DrmFbDestroyCallback_fn,
                 store_fb fb
                   {| bo := bo_ident b; fb_id := Some id; format := fmt |}
                   w') in
      let first := AddFB2WithModifiers_call (m_fd this) fmt b in
      let w2 := request w1 first in
      match driver (calls w1) first with
      | Some id => attach id w2
      | None =>
          let second := AddFB2_call (m_fd this) fmt b in
          let w3 := request w2 second in
          match driver (calls w2) second with
          | Some id => attach id w3
          | None => Returns (None, b, delete_fb fb w3)
          end
      end
  end.

Definition DrmFbGetFromBo (this : CDRMUtils) (b : gbm_bo) (w : world)
    : outcome (option addr * gbm_bo * world) :=
  match lookup_cached this b w with
  | Undefined f => Undefined f
  | Returns (Hit fb) => Returns (Some fb, b, w)
  | Returns (Miss w1) => register this b w1
  end.
End Binder.

(** ** Statements of the specification, and inputs the properties are
    evaluated at *)

(** The flag the specification's priority gives: top-and-bottom, then
    side-by-side-half, then interlaced, then progressive. *)
Definition priority_flag `{PresentFlags} (mode : drmModeModeInfo) : Z :=
  if has_bits (flags mode) DRM_MODE_FLAG_3D_TOP_AND_BOTTOM
  then D3DPRESENTFLAG_MODE3DTB
  else if has_bits (flags mode) DRM_MODE_FLAG_3D_SIDE_BY_SIDE_HALF
  then D3DPRESENTFLAG_MODE3DSBS
  else if has_bits (flags mode) DRM_MODE_FLAG_INTERLACE
  then D3DPRESENTFLAG_INTERLACED
  else D3DPRESENTFLAG_PROGRESSIVE.

(** [x] is within [p/q / 2^k] of the fraction [p/q] (with [0 < q]). *)
Definition close_to (x : spec_float) (p q k : Z) : Prop :=
  Z.abs ((to_fraction x).1 * q - p * (to_fraction x).2) * 2 ^ k
  <= p * (to_fraction x).2.

(** [x] is the integer [z]. *)
Definition exactly (x : spec_float) (z : Z) : Prop :=
  (to_fraction x).1 = z * (to_fraction x).2.

Definition close_to_b (x : spec_float) (p q k : Z) : bool :=
  Z.abs ((to_fraction x).1 * q - p * (to_fraction x).2) * 2 ^ k
  <=? p * (to_fraction x).2.

Definition exactly_b (x : spec_float) (z : Z) : bool :=
  (to_fraction x).1 =? z * (to_fraction x).2.

(** One assignment of the four flags to distinct bits. *)
Definition sample_flags : PresentFlags :=
  {| D3DPRESENTFLAG_INTERLACED := 1;
     D3DPRESENTFLAG_PROGRESSIVE := 4;
     D3DPRESENTFLAG_MODE3DSBS := 8;
     D3DPRESENTFLAG_MODE3DTB := 16 |}.

(** A [RESOLUTION_INFO] with every member cleared. *)
Definition cleared_info : RESOLUTION_INFO :=
  {| iWidth := 0; iHeight := 0; iScreenWidth := 0; iScreenHeight := 0;
     iSubtitles := 0; dwFlags := 0;
     fPixelRatio := F32.of_Z 1; fRefreshRate := F32.of_Z 0;
     bFullScreen := true |}.

Definition mode_2160p (rate clk fl : Z) : drmModeModeInfo :=
  {| clock := clk; hdisplay := 3840; vdisplay := 2160; vrefresh := rate;
     flags := fl; type := 0 |}.

Definition mode_1080p (rate clk fl : Z) : drmModeModeInfo :=
  {| clock := clk; hdisplay := 1920; vdisplay := 1080; vrefresh := rate;
     flags := fl; type := 0 |}.

(** A [CDRMUtils] on which nothing has been selected yet. *)
Definition unselected (fd : Z) (connector : CDRMConnector)
    (encoder : CDRMEncoder) (crtcs : list (option CDRMCrtc))
    (planes : list CDRMPlane) : CDRMUtils :=
  {| m_fd := fd; m_connector := connector; m_encoder := encoder;
     m_crtcs := crtcs; m_planes := planes;
     m_crtc := None; m_video_plane := None; m_gui_plane := None;
     m_mode := None |}.

Definition with_modes (l : list drmModeModeInfo) : CDRMUtils :=
  unselected 3 {| modes := l |}
    {| encoder_crtc_id := 0; encoder_possible_crtcs := 0 |} [] [].

Definition raw_mode (w h ty : Z) : drmModeModeInfo :=
  {| clock := 0; hdisplay := w; vdisplay := h; vrefresh := 60;
     flags := 0; type := ty |}.

(** In a list without a preferred mode, [i] is the first mode of the
    largest area, and that area is positive. *)
Definition first_largest (l : list drmModeModeInfo) (i : nat) : Prop :=
  exists m, l !! i = Some m
    /\ 0 < current_area m
    /\ (forall j m', l !! j = Some m' -> current_area m' <= current_area m)
    /\ (forall j m', (j < i)%nat -> l !! j = Some m' ->
          current_area m' < current_area m).

(** [x] is the first element of [l] that satisfies [P]. *)
Definition first_match {A : Type} (P : A -> bool) (l : list A) (x : A) : Prop :=
  exists j, l !! j = Some x /\ P x = true
    /\ forall k y, (k < j)%nat -> l !! k = Some y -> P y = false.

(** [plane] can be attached to CRTC [i], is not the plane [video], and
    supports both the alpha and the opaque 32-bit RGB format. *)
Definition is_dual_plane (i : nat) (video plane : CDRMPlane) : bool :=
  on_crtc plane i
  && negb (GetPlaneId plane =? GetPlaneId video)
  && SupportsFormat plane DRM_FORMAT_ARGB8888
  && SupportsFormat plane DRM_FORMAT_XRGB8888.


(** The condition the code tests on CRTC [i]: the first attachable plane
    that supports NV12 is [video], and a distinct attachable plane supports
    both RGB formats. *)
Definition full_crtc_with (planes : list CDRMPlane) (i : nat)
    (video : CDRMPlane) : Prop :=
  first_match (is_video_plane i) planes video
  /\ exists gui, gui ∈ planes /\ is_dual_plane i video gui = true.


(** No plane attachable to a CRTC of the list supports the opaque format. *)
Definition no_gui_plane (crtcs : list (option CDRMCrtc))
    (planes : list CDRMPlane) : Prop :=
  forall i crtc plane,
    crtcs !! i = Some (Some crtc) -> plane ∈ planes ->
    on_crtc plane i = true ->
    SupportsFormat plane DRM_FORMAT_XRGB8888 = false.

Definition plane (id mask : Z) (fmts : list Z) : CDRMPlane :=
  {| GetPlaneId := id; plane_possible_crtcs := mask; formats := fmts;
     GetFormat := DRM_FORMAT_XRGB8888 |}.

Definition crtc (id : Z) : option CDRMCrtc := Some {| crtc_id := id |}.

Definition resolver (bound : Z) (crtcs : list (option CDRMCrtc))
    (planes : list CDRMPlane) : CDRMUtils :=
  unselected 3 {| modes := [] |}
    {| encoder_crtc_id := bound; encoder_possible_crtcs := 3 |} crtcs planes.

(** One CRTC whose only plane is a video overlay. *)
Definition video_only : CDRMUtils :=
  resolver 41 [crtc 41] [plane 31 1 [DRM_FORMAT_NV12]].


(** Two CRTCs, the first one bound to the encoder; plane 31 serves the first
    CRTC, the overlay 32 and the RGB plane 33 serve the second one. *)
Definition overlay_on_second : CDRMUtils :=
  resolver 41 [crtc 41; crtc 42]
    [plane 31 1 [DRM_FORMAT_XRGB8888; DRM_FORMAT_ARGB8888];
     plane 32 2 [DRM_FORMAT_NV12];
     plane 33 2 [DRM_FORMAT_XRGB8888; DRM_FORMAT_ARGB8888]].

(** A [CDRMUtils] whose GUI plane is selected. *)
Definition with_gui_plane : CDRMUtils :=
  set_planes overlay_on_second (crtc 42)
    (Some (plane 32 2 [DRM_FORMAT_NV12]))
    (Some (plane 33 2 [DRM_FORMAT_XRGB8888; DRM_FORMAT_ARGB8888])).

(** A single-plane 1920x1080 buffer that carries no framebuffer. *)
Definition plain_buffer : gbm_bo :=
  {| bo_ident := 4096; bo_device_fd := 3;
     bo_width := 1920; bo_height := 1080;
     bo_handle := 7; bo_stride := 7680;
     bo_planes := [(7, 7680, 0)]; bo_modifier := 0;
     bo_user_data := None; bo_destroy := None |}.

Definition empty_world : world := {| heap := ∅; calls := [] |}.

(** Drivers: one that refuses every registration, one that accepts only the
    legacy request, one that accepts every request. *)
Definition refusing (served : list drm_call) (c : drm_call) : option Z := None.

Definition legacy_only (served : list drm_call) (c : drm_call) : option Z :=
  match c with
  | drmModeAddFB2 _ _ _ _ _ _ _ _ => Some 5
  | _ => None
  end.

Definition accepting (served : list drm_call) (c : drm_call) : option Z :=
  Some 5.

(** The framebuffer a successful registration leaves behind. *)
Definition registered (b : gbm_bo) (gui : CDRMPlane) (id : Z) : drm_fb :=
  {| bo := bo_ident b; fb_id := Some id; format := GetFormat gui |}.

(** The buffer after a registration that the driver answered with
    identity 5, and a world in which its framebuffer has the opaque format,
    the format of the GUI plane of [with_gui_plane]. *)
Definition bound_buffer : gbm_bo :=
  gbm_bo_set_user_data plain_buffer 1%positive DrmFbDestroyCallback_fn.

Definition bound_world : world :=
  {| heap :=
       {[ 1%positive :=
            {| bo := 4096; fb_id := Some 5; format := DRM_FORMAT_XRGB8888 |} ]};
     calls := [] |}.

(** A world in which the framebuffer of [bound_buffer] has the alpha format,
    which is not the format of the GUI plane of [with_gui_plane]. *)
Definition stale_world : world :=
  {| heap :=
       {[ 1%positive :=
            {| bo := 4096; fb_id := Some 5; format := DRM_FORMAT_ARGB8888 |} ]};
     calls := [] |}.

(** A single CRTC whose video overlay has the identity 0: a plane that
    supports the opaque format only precedes the plane for both formats. *)
Definition overlay_zero : CDRMUtils :=
  resolver 41 [crtc 41]
    [plane 0 1 [DRM_FORMAT_NV12];
     plane 5 1 [DRM_FORMAT_XRGB8888];
     plane 6 1 [DRM_FORMAT_XRGB8888; DRM_FORMAT_ARGB8888]].

(** ** FourCC helpers *)

(** [fourcc & 0xFFFFFF00 | 'A']. *)
Definition FourCCWithAlpha (fourcc : Z) : Z :=
  Z.lor (Z.land fourcc 4294967040) 65.

(** [fourcc & 0xFFFFFF00 | 'X']. *)
Definition FourCCWithoutAlpha (fourcc : Z) : Z :=
  Z.lor (Z.land fourcc 4294967040) 88.

(** [static_cast<char>] of a value below 256. *)
Definition to_char (z : Z) : ascii := ascii_of_N (Z.to_N z).

(** The four characters streamed into the [std::stringstream]. *)
Definition FourCCToString (fourcc : Z) : string :=
  String (to_char (Z.land fourcc 255))
    (String (to_char (Z.shiftr (Z.land fourcc 65280) 8))
       (String (to_char (Z.shiftr (Z.land fourcc 16711680) 16))
          (String (to_char (Z.shiftr (Z.land fourcc 4278190080) 24))
             EmptyString))).

(** The string without its first character. *)
Definition behead (s : string) : string :=
  match s with
  | EmptyString => EmptyString
  | String _ s' => s'
  end.

(** ** Statements about FindPlanes *)



(** ** Statements about the framebuffer binder *)

(** The request [DrmFbDestroyCallback] makes for a framebuffer of identity
    [id]: none when the identity is 0. *)
Definition removal (b : gbm_bo) (id : Z) : list drm_call :=
  if id >? 0 then [drmModeRmFB (bo_device_fd b) id] else [].

(** ** The object with all its members *)

(** Modelled from the spec: the members of [CDRMConnector] (DRMConnector.h,
    outside DRMUtils.cpp) beyond its mode list: the identity of the
    connector, the encoder it is associated with (0 if none) and its
    connection state. *)
Record connector_object : Type := {
  connector_of : CDRMConnector;
  GetConnectorId : Z;              (* uint32_t *)
  GetEncoderId : Z;                (* CDRMConnector::GetEncoderId(), uint32_t *)
  IsConnected : bool;
}.

(** Modelled from the spec: [CDRMEncoder] with its own identity. *)
Record encoder_object : Type := {
  encoder_of : CDRMEncoder;
  encoder_id : Z;                  (* CDRMEncoder::GetEncoderId(), uint32_t *)
}.

(** Modelled from the spec: [CDRMCrtc] with its current framebuffer, scanout
    origin and mode. *)
Record crtc_object : Type := {
  crtc_of : CDRMCrtc;
  GetBufferId : Z;                 (* uint32_t *)
  GetX : Z;                        (* uint32_t *)
  GetY : Z;                        (* uint32_t *)
  GetMode : drmModeModeInfo;
}.

(** Modelled from the spec: [CDRMPlane] with its modifiers.  [in_formats] is
    the modifier data the driver reports for the plane, if it reports any;
    [modifiers_map] holds the modifiers of each format. *)
Record plane_object : Type := {
  plane_of : CDRMPlane;
  in_formats : option (gmap Z (list Z));
  modifiers_map : gmap Z (list Z);
}.

Definition DRM_FORMAT_MOD_LINEAR : Z := 0.

(** Modelled from the spec: [CDRMPlane::FindModifiers] fills the map from
    the modifier data of the plane and tells whether there was any. *)
Definition FindModifiers (p : plane_object) : bool * plane_object :=
  match in_formats p with
  | None => (false, p)
  | Some reported =>
      (true, {| plane_of := plane_of p; in_formats := in_formats p;
                modifiers_map := reported |})
  end.

(** [plane->GetModifiersForFormat(format)->emplace_back(modifier)]. *)
Definition add_modifier (fmt modifier : Z) (p : plane_object) : plane_object :=
  {| plane_of := plane_of p; in_formats := in_formats p;
     modifiers_map :=
       <[fmt := default [] (modifiers_map p !! fmt) ++ [modifier]]>
         (modifiers_map p) |}.

(** The body of the loop over the planes in [InitDrm]. *)
Definition linear_fallback (p : plane_object) : plane_object :=
  let '(found, p1) := FindModifiers p in
  if found then p1
  else
    let p2 :=
      if SupportsFormat (plane_of p1) DRM_FORMAT_ARGB8888
      then add_modifier DRM_FORMAT_ARGB8888 DRM_FORMAT_MOD_LINEAR p1
      else p1 in
    if SupportsFormat (plane_of p2) DRM_FORMAT_XRGB8888
    then add_modifier DRM_FORMAT_XRGB8888 DRM_FORMAT_MOD_LINEAR p2
    else p2.

(** All the members of [CDRMUtils] that DRMUtils.cpp reads or assigns;
    [s_x] is the member [m_x].  [InitDrm] fills the vectors with
    [std::make_unique], so none of their entries is null. *)
Record CDRMUtils_members : Type := {
  s_fd : Z;                                  (* int *)
  s_renderFd : Z;                            (* int *)
  s_connectors : list connector_object;
  s_encoders : list encoder_object;
  s_crtcs : list crtc_object;
  s_planes : list plane_object;
  s_connector : option connector_object;
  s_encoder : option encoder_object;
  s_crtc : option CDRMCrtc;
  s_orig_crtc : option crtc_object;
  s_video_plane : option CDRMPlane;
  s_gui_plane : option CDRMPlane;
  s_mode : option nat;
  s_width : Z;                               (* int *)
  s_height : Z;                              (* int *)
}.

Definition set_objects (s : CDRMUtils_members)
    (connectors : list connector_object) (encoders : list encoder_object)
    (crtcs : list crtc_object) (planes : list plane_object)
    : CDRMUtils_members :=
  {| s_fd := s_fd s; s_renderFd := s_renderFd s;
     s_connectors := connectors; s_encoders := encoders;
     s_crtcs := crtcs; s_planes := planes;
     s_connector := s_connector s; s_encoder := s_encoder s;
     s_crtc := s_crtc s; s_orig_crtc := s_orig_crtc s;
     s_video_plane := s_video_plane s; s_gui_plane := s_gui_plane s;
     s_mode := s_mode s; s_width := s_width s; s_height := s_height s |}.

Definition set_topology (s : CDRMUtils_members)
    (connector : option connector_object) (encoder : option encoder_object)
    (orig : option crtc_object) : CDRMUtils_members :=
  {| s_fd := s_fd s; s_renderFd := s_renderFd s;
     s_connectors := s_connectors s; s_encoders := s_encoders s;
     s_crtcs := s_crtcs s; s_planes := s_planes s;
     s_connector := connector; s_encoder := encoder;
     s_crtc := s_crtc s; s_orig_crtc := orig;
     s_video_plane := s_video_plane s; s_gui_plane := s_gui_plane s;
     s_mode := s_mode s; s_width := s_width s; s_height := s_height s |}.

Definition set_selection (s : CDRMUtils_members) (c : option CDRMCrtc)
    (video gui : option CDRMPlane) (mode : option nat) (width height : Z)
    : CDRMUtils_members :=
  {| s_fd := s_fd s; s_renderFd := s_renderFd s;
     s_connectors := s_connectors s; s_encoders := s_encoders s;
     s_crtcs := s_crtcs s; s_planes := s_planes s;
     s_connector := s_connector s; s_encoder := s_encoder s;
     s_crtc := c; s_orig_crtc := s_orig_crtc s;
     s_video_plane := video; s_gui_plane := gui;
     s_mode := mode; s_width := width; s_height := height |}.

(** The members [FindPlanes] and [FindPreferredMode] work on, once
    [m_connector] and [m_encoder] point to [connector] and [encoder]. *)
Definition utils_of (s : CDRMUtils_members) (connector : connector_object)
    (encoder : encoder_object) : CDRMUtils :=
  {| m_fd := s_fd s;
     m_connector := connector_of connector;
     m_encoder := encoder_of encoder;
     m_crtcs := map (fun c => Some (crtc_of c)) (s_crtcs s);
     m_planes := map plane_of (s_planes s);
     m_crtc := s_crtc s;
     m_video_plane := s_video_plane s;
     m_gui_plane := s_gui_plane s;
     m_mode := s_mode s |}.

(** The members those two functions assign, taken back. *)
Definition absorb (s : CDRMUtils_members) (u : CDRMUtils) : CDRMUtils_members :=
  set_selection s (m_crtc u) (m_video_plane u) (m_gui_plane u) (m_mode u)
    (s_width s) (s_height s).

(** *** FindConnector, FindEncoder, FindCrtc *)

Definition usable_connector (c : connector_object) : bool :=
  (GetEncoderId c >? 0) && IsConnected c.

Definition FindConnector (s : CDRMUtils_members) : bool * CDRMUtils_members :=
  let connector := find_if usable_connector (s_connectors s) in
  match s_connectors s !! connector with
  | None => (false, s)
  | Some c => (true, set_topology s (Some c) (s_encoder s) (s_orig_crtc s))
  end.

(** The predicate reads [m_connector->GetEncoderId()] for every encoder it
    is given, so a null [m_connector] is read unless there is no encoder. *)
Definition FindEncoder (s : CDRMUtils_members)
    : outcome (bool * CDRMUtils_members) :=
  match s_encoders s, s_connector s with
  | [], _ => Returns (false, s)
  | _ :: _, None => Undefined NullDeref
  | _ :: _, Some c =>
      let encoder :=
        find_if (fun e => encoder_id e =? GetEncoderId c) (s_encoders s) in
      match s_encoders s !! encoder with
      | None => Returns (false, s)
      | Some e =>
          Returns (true, set_topology s (s_connector s) (Some e) (s_orig_crtc s))
      end
  end.

(** The [for] loop of [FindCrtc] from index [i] on. *)
Fixpoint FindCrtc_loop (encoder : CDRMEncoder) (crtcs : list crtc_object)
    (i : nat) : option crtc_object :=
  match crtcs with
  | [] => None
  | c :: crtcs' =>
      if has_bits (encoder_possible_crtcs encoder) (Z.shiftl 1 (Z.of_nat i))
      then
        if crtc_id (crtc_of c) =? encoder_crtc_id encoder
        then Some c
        else FindCrtc_loop encoder crtcs' (S i)
      else FindCrtc_loop encoder crtcs' (S i)
  end.

Definition FindCrtc (s : CDRMUtils_members)
    : outcome (bool * CDRMUtils_members) :=
  match s_crtcs s, s_encoder s with
  | [], _ => Returns (false, s)
  | _ :: _, None => Undefined NullDeref
  | _ :: _, Some e =>
      match FindCrtc_loop (encoder_of e) (s_crtcs s) 0%nat with
      | Some c =>
          Returns (true, set_topology s (s_connector s) (s_encoder s) (Some c))
      | None => Returns (false, s)
      end
  end.

(** *** InitDrm *)

Definition DRM_CLIENT_CAP_STEREO_3D : Z := 1.
Definition DRM_CLIENT_CAP_UNIVERSAL_PLANES : Z := 2.

(** What the driver answers during [InitDrm].  The wrappers that
    [std::make_unique] builds from the listed identities are taken as they
    come out of their constructors, which lie outside DRMUtils.cpp.  The
    answer to the aspect-ratio capability is only logged. *)
Record drm_answers : Type := {
  set_client_cap : Z -> Z -> Z;      (* drmSetClientCap(fd, capability, value) *)
  get_resources :                    (* drmModeGetResources, null is None *)
    option (list connector_object * list encoder_object * list crtc_object);
  get_plane_resources : option (list plane_object);
  set_master : Z;                    (* drmSetMaster *)
  get_magic : Z * Z;                 (* drmGetMagic: return value, magic *)
  auth_magic : Z -> Z;               (* drmAuthMagic(fd, magic) *)
  set_crtc : Z -> Z;                 (* drmModeSetCrtc, by CRTC identity *)
}.

(** [drmSetMaster] and, when it fails, the magic-token handshake. *)
Definition acquire_master (drv : drm_answers) : bool :=
  if set_master drv <? 0 then
    if (get_magic drv).1 <? 0 then false
    else if auth_magic drv (get_magic drv).2 <? 0 then false
    else true
  else true.

(** [FindPlanes] and [FindPreferredMode], run on the members. *)
Definition resolve_planes_and_mode (drv : drm_answers) (s : CDRMUtils_members)
    (connector : connector_object) (encoder : encoder_object)
    : outcome (bool * CDRMUtils_members) :=
  match FindPlanes (utils_of s connector encoder) with
  | Undefined f => Undefined f
  | Returns (false, u) => Returns (false, absorb s u)
  | Returns (true, u) =>
      let s1 := absorb s u in
      let '(found, u1) := FindPreferredMode (utils_of s1 connector encoder) in
      let s2 := absorb s1 u1 in
      if found then Returns (acquire_master drv, s2) else Returns (false, s2)
  end.

Definition InitDrm (drv : drm_answers) (s : CDRMUtils_members)
    : outcome (bool * CDRMUtils_members) :=
  if s_fd s <? 0 then Returns (false, s)
  else if negb (set_client_cap drv DRM_CLIENT_CAP_UNIVERSAL_PLANES 1 =? 0)
  then Returns (false, s)
  else if negb (set_client_cap drv DRM_CLIENT_CAP_STEREO_3D 1 =? 0)
  then Returns (false, s)
  else
    match get_resources drv with
    | None => Returns (false, s)
    | Some (connectors, encoders, crtcs) =>
        let s1 :=
          set_objects s (s_connectors s ++ connectors)
            (s_encoders s ++ encoders) (s_crtcs s ++ crtcs) (s_planes s) in
        match get_plane_resources drv with
        | None => Returns (false, s1)
        | Some planes =>
            let s2 :=
              set_objects s1 (s_connectors s1) (s_encoders s1) (s_crtcs s1)
                (map linear_fallback (s_planes s1 ++ planes)) in
            match FindConnector s2 with
            | (false, s3) => Returns (false, s3)
            | (true, s3) =>
                match FindEncoder s3 with
                | Undefined f => Undefined f
                | Returns (false, s4) => Returns (false, s4)
                | Returns (true, s4) =>
                    match FindCrtc s4 with
                    | Undefined f => Undefined f
                    | Returns (false, s5) => Returns (false, s5)
                    | Returns (true, s5) =>
                        match s_connector s5, s_encoder s5 with
                        | Some connector, Some encoder =>
                            resolve_planes_and_mode drv s5 connector encoder
                        | _, _ => Undefined NullDeref
                        end
                    end
                end
            end
        end
    end.

(** *** RestoreOriginalMode, DestroyDrm *)

Definition EINVAL : Z := 22.

(** The requests of the teardown. *)
Inductive teardown_call : Type :=
  | drmModeSetCrtc (fd crtcId bufferId x y connectorId count : Z)
      (mode : drmModeModeInfo)
  | drmAuthMagic (fd magic : Z)
  | drmDropMaster (fd : Z)
  | close (fd : Z).

Definition RestoreOriginalMode (drv : drm_answers) (s : CDRMUtils_members)
    : outcome (bool * list teardown_call) :=
  match s_orig_crtc s with
  | None => Returns (false, [])
  | Some orig =>
      match s_connector s with
      | None => Undefined NullDeref
      | Some connector =>
          let call :=
            drmModeSetCrtc (s_fd s) (crtc_id (crtc_of orig)) (GetBufferId orig)
              (GetX orig) (GetY orig) (GetConnectorId connector) 1
              (GetMode orig) in
          Returns (set_crtc drv (crtc_id (crtc_of orig)) =? 0, [call])
      end
  end.

Definition DestroyDrm (drv : drm_answers) (s : CDRMUtils_members)
    : outcome (CDRMUtils_members * list teardown_call) :=
  match RestoreOriginalMode drv s with
  | Undefined f => Undefined f
  | Returns (_, restore) =>
      let drop :=
        if auth_magic drv 0 =? EINVAL then [drmDropMaster (s_fd s)] else [] in
      Returns
        (set_topology
           (set_selection s None None None (s_mode s) (s_width s) (s_height s))
           None None None,
         restore ++ [drmAuthMagic (s_fd s) 0] ++ drop
         ++ [close (s_renderFd s); close (s_fd s)])
  end.

(** A [CDRMUtils] in which nothing is listed and nothing is selected, as
    [InitDrm] expects it, with the descriptors [fd] and [renderFd]. *)
Definition constructed (fd renderFd : Z) : CDRMUtils_members :=
  {| s_fd := fd; s_renderFd := renderFd;
     s_connectors := []; s_encoders := []; s_crtcs := []; s_planes := [];
     s_connector := None; s_encoder := None; s_crtc := None;
     s_orig_crtc := None; s_video_plane := None; s_gui_plane := None;
     s_mode := None; s_width := 0; s_height := 0 |}.

(** A display for the examples: a connector without encoder, then a connected
    one with two modes, whose encoder is bound to CRTC 41 of two CRTCs. *)
Definition sample_connector (encoder : Z) : connector_object :=
  {| connector_of :=
       {| modes := [raw_mode 1280 720 0;
                    raw_mode 1920 1080 DRM_MODE_TYPE_PREFERRED] |};
     GetConnectorId := 77; GetEncoderId := encoder; IsConnected := true |}.

Definition sample_encoder : encoder_object :=
  {| encoder_of := {| encoder_crtc_id := 41; encoder_possible_crtcs := 3 |};
     encoder_id := 61 |}.

Definition crtc_on (id : Z) : crtc_object :=
  {| crtc_of := {| crtc_id := id |};
     GetBufferId := 9; GetX := 0; GetY := 0;
     GetMode := raw_mode 1920 1080 0 |}.

Definition bare_plane (p : CDRMPlane) : plane_object :=
  {| plane_of := p; in_formats := None; modifiers_map := ∅ |}.

(** A driver that accepts the capabilities and lists that display with the
    planes [planes]; [master] is its answer to [drmSetMaster] and [magic] its
    answer to [drmGetMagic]; it authorises the magic token 7 only. *)
Definition sample_driver (planes : list CDRMPlane) (master : Z)
    (magic : Z * Z) : drm_answers :=
  {| set_client_cap := fun _ _ => 0;
     get_resources :=
       Some ([sample_connector 0; sample_connector 61], [sample_encoder],
             [crtc_on 41; crtc_on 42]);
     get_plane_resources := Some (map bare_plane planes);
     set_master := master;
     get_magic := magic;
     auth_magic := fun magic => if magic =? 7 then 0 else -1;
     set_crtc := fun _ => 0 |}.

(** ** Statements about InitDrm and DestroyDrm *)

(** The requests [DestroyDrm] makes after the attempt to restore the
    original mode. *)
Definition handover (drv : drm_answers) (s : CDRMUtils_members)
    : list teardown_call :=
  drmAuthMagic (s_fd s) 0
  :: (if auth_magic drv 0 =? EINVAL then [drmDropMaster (s_fd s)] else [])
  ++ [close (s_renderFd s); close (s_fd s)].

(** The request that puts the original CRTC [o] back on the connector [c]. *)
Definition restoring (fd : Z) (o : crtc_object) (c : connector_object)
    : teardown_call :=
  drmModeSetCrtc fd (crtc_id (crtc_of o)) (GetBufferId o) (GetX o) (GetY o)
    (GetConnectorId c) 1 (GetMode o).

(** Nothing is selected: the six pointers [DestroyDrm] resets are null. *)
Definition released (s : CDRMUtils_members) : Prop :=
  s_connector s = None /\ s_encoder s = None /\ s_crtc s = None
  /\ s_orig_crtc s = None /\ s_video_plane s = None /\ s_gui_plane s = None.

(** The object after [InitDrm] has run on descriptor 3 against
    [sample_driver] with the planes of [overlay_on_second]. *)
Definition sample_session : CDRMUtils_members :=
  set_selection
    (set_topology
       (set_objects (constructed 3 (-1))
          [sample_connector 0; sample_connector 61] [sample_encoder]
          [crtc_on 41; crtc_on 42]
          (map linear_fallback (map bare_plane (m_planes overlay_on_second))))
       (Some (sample_connector 61)) (Some sample_encoder) (Some (crtc_on 41)))
    (crtc 42) (Some (plane 32 2 [DRM_FORMAT_NV12]))
    (Some (plane 33 2 [DRM_FORMAT_XRGB8888; DRM_FORMAT_ARGB8888]))
    (Some 1%nat) 0 0.

(** An object whose encoder is selected and whose second CRTC is the one
    bound to that encoder. *)
Definition crtc_search : CDRMUtils_members :=
  set_topology
    (set_objects (constructed 3 (-1)) [] [sample_encoder]
       [crtc_on 42; crtc_on 41] [])
    None (Some sample_encoder) None.

(** ** GetModes, SetMode *)

(** [std::to_string(i)] for the index of a mode, which is not negative: its
    decimal digits. *)
Definition to_string (i : nat) : string :=
  NilEmpty.string_of_uint (Nat.to_uint i).

(** [std::atoi] of the C library: white space is skipped, an optional sign is
    read, then decimal digits up to the first other character.  Its value is
    that of the digits; beyond the range of [int] C leaves it undefined, and
    the exact value stands here. *)
Definition isspace (c : ascii) : bool :=
  let n := N_of_ascii c in
  ((n =? 32) || ((9 <=? n) && (n <=? 13)))%N.

Definition digit_of (c : ascii) : option Z :=
  let n := N_of_ascii c in
  if ((48 <=? n) && (n <=? 57))%N then Some (Z.of_N n - 48) else None.

Fixpoint atoi_digits (s : string) (acc : Z) : Z :=
  match s with
  | EmptyString => acc
  | String c s' =>
      match digit_of c with
      | Some d => atoi_digits s' (10 * acc + d)
      | None => acc
      end
  end.

Definition atoi_signed (s : string) : Z :=
  match s with
  | String "-" s' => - atoi_digits s' 0
  | String "+" s' => atoi_digits s' 0
  | _ => atoi_digits s 0
  end.

Fixpoint atoi (s : string) : Z :=
  match s with
  | EmptyString => 0
  | String c s' => if isspace c then atoi s' else atoi_signed s
  end.

(** A [RESOLUTION_INFO] with its member [strId], which [GetResolutionInfo]
    leaves as constructed and [GetModes] assigns. *)
Record RESOLUTION : Type := {
  info : RESOLUTION_INFO;
  strId : string;
}.

(** The result of [SetMode].  [GetModeForIndex] (DRMConnector.h, outside
    DRMUtils.cpp) is read as in [FindPreferredMode]: the address of the mode
    at the index.  It checks no bound, so for an index outside the list
    [m_mode] points outside the modes; the log line then reads through it,
    and the model stops there with [Outside]. *)
Inductive SetMode_result : Type :=
  | Done (ok : bool) (s : CDRMUtils_members)
  | Outside (index : Z).

Section Modes.
Context `{PresentFlags}.
(* The [RESOLUTION_INFO] as constructed and the setting
   videoscreen.limitguisize, as [GetResolutionInfo] takes them. *)
Variable res : RESOLUTION_INFO.
Variable limit : Z.
(* [CDRMConnector::CheckConnector] (DRMConnector.h, outside DRMUtils.cpp):
   it reloads the connector from the driver and tells whether it is
   connected.  [m_connector] points to the reloaded object. *)
Variable CheckConnector : connector_object -> bool * connector_object.

(** The loop of [GetModes] from index [i] on. *)
Fixpoint GetModes_loop (l : list drmModeModeInfo) (i : nat)
    : list RESOLUTION :=
  match l with
  | [] => []
  | mode :: l' =>
      {| info := GetResolutionInfo res limit mode; strId := to_string i |}
      :: GetModes_loop l' (S i)
  end.

Definition GetModes (s : CDRMUtils_members) : outcome (list RESOLUTION) :=
  match s_connector s with
  | None => Undefined NullDeref
  | Some c => Returns (GetModes_loop (modes (connector_of c)) 0%nat)
  end.

Definition SetMode (s : CDRMUtils_members) (r : RESOLUTION)
    : outcome SetMode_result :=
  match s_connector s with
  | None => Undefined NullDeref
  | Some c =>
      let '(connected, c') := CheckConnector c in
      let s1 := set_topology s (Some c') (s_encoder s) (s_orig_crtc s) in
      if negb connected then Returns (Done false s1)
      else
        let index := atoi (strId r) in
        if (0 <=? index)
           && (index <? Z.of_nat (length (modes (connector_of c'))))
        then
          Returns
            (Done true
               (set_selection s1 (s_crtc s1) (s_video_plane s1)
                  (s_gui_plane s1) (Some (Z.to_nat index))
                  (iWidth (info r)) (iHeight (info r))))
        else Returns (Outside index)
  end.

(** [GetCurrentMode]; [m_mode] is given as the mode it points to, null
    being [None]. *)
Definition GetCurrentMode (m_mode : option drmModeModeInfo)
    : outcome RESOLUTION_INFO :=
  match m_mode with
  | None => Undefined NullDeref
  | Some mode => Returns (GetResolutionInfo res limit mode)
  end.
End Modes.

(** A connector check that finds the connector connected and unchanged. *)
Definition still_connected (c : connector_object) : bool * connector_object :=
  (true, c).

(** ** OpenDrm *)

Definition DRM_NODE_MAX : nat := 3.

(** A [drmDevice] of libdrm, as far as [OpenDrm] reads it: the mask of the
    nodes it has and the path of each node. *)
Record drmDevice : Type := {
  available_nodes : Z;             (* int *)
  nodes : nat -> string;           (* char** of DRM_NODE_MAX paths *)
}.

(** What the system answers during [OpenDrm].  [get_devices] is the second
    call of [drmGetDevices2]: its return value and the devices it stored, in
    order; the entries of the vector it did not store stay null. *)
Record system_answers : Type := {
  device_count : Z;                (* drmGetDevices2(0, nullptr, 0) *)
  get_devices : Z * list drmDevice;
  open_node : string -> Z;         (* open(path, O_RDWR | O_CLOEXEC) *)
  connectors_of :                  (* drmModeGetResources(fd), null is None *)
    Z -> option (list connector_object);
  render_node : Z -> option string;(* drmGetRenderDeviceNameFromFd(fd) *)
}.

(** The descriptor calls [OpenDrm] makes. *)
Inductive descriptor_call : Type :=
  | sys_close (fd : Z)
  | sys_open (path : string).

Definition set_fds (s : CDRMUtils_members) (fd renderFd : Z)
    : CDRMUtils_members :=
  {| s_fd := fd; s_renderFd := renderFd;
     s_connectors := s_connectors s; s_encoders := s_encoders s;
     s_crtcs := s_crtcs s; s_planes := s_planes s;
     s_connector := s_connector s; s_encoder := s_encoder s;
     s_crtc := s_crtc s; s_orig_crtc := s_orig_crtc s;
     s_video_plane := s_video_plane s; s_gui_plane := s_gui_plane s;
     s_mode := s_mode s; s_width := s_width s; s_height := s_height s |}.

(** How the body of the inner loop ends: with [return true], or by going on
    to the next node. *)
Inductive scan : Type :=
  | Opened (s : CDRMUtils_members) (calls : list descriptor_call)
  | Passed (s : CDRMUtils_members) (calls : list descriptor_call).

(** The body of the inner loop for an available node at [path].  The loop
    over the connectors stops at the first connected connector with an
    encoder; what it finds is not used. *)
Definition try_node (sys : system_answers) (needConnector : bool)
    (path : string) (s : CDRMUtils_members) (calls : list descriptor_call)
    : scan :=
  let calls1 := calls ++ [sys_close (s_fd s); sys_open path] in
  let s1 := set_fds s (open_node sys path) (s_renderFd s) in
  let render :=
    match render_node sys (s_fd s1) with
    | Some renderPath =>
        Opened (set_fds s1 (s_fd s1) (open_node sys renderPath))
          (calls1 ++ [sys_open renderPath])
    | None => Opened s1 calls1
    end in
  if s_fd s1 <? 0 then Passed s1 calls1
  else if needConnector then
    match connectors_of sys (s_fd s1) with
    | None => Passed s1 calls1
    | Some connectors =>
        let connector := find_if usable_connector connectors in
        render
    end
  else render.

(** The inner loop: [count] nodes from node [i] on. *)
Fixpoint OpenDrm_nodes (sys : system_answers) (needConnector : bool)
    (device : drmDevice) (count i : nat) (s : CDRMUtils_members)
    (calls : list descriptor_call) : scan :=
  match count with
  | O => Passed s calls
  | S count' =>
      if has_bits (available_nodes device) (Z.shiftl 1 (Z.of_nat i)) then
        match try_node sys needConnector (nodes device i) s calls with
        | Opened s' calls' => Opened s' calls'
        | Passed s' calls' =>
            OpenDrm_nodes sys needConnector device count' (S i) s' calls'
        end
      else OpenDrm_nodes sys needConnector device count' (S i) s calls
  end.

(** The outer loop over the vector of device pointers. *)
Fixpoint OpenDrm_devices (sys : system_answers) (needConnector : bool)
    (devices : list (option drmDevice)) (s : CDRMUtils_members)
    (calls : list descriptor_call)
    : outcome (bool * CDRMUtils_members * list descriptor_call) :=
  match devices with
  | [] => Returns (false, s, calls)
  | None :: _ => Undefined NullDeref
  | Some device :: devices' =>
      match OpenDrm_nodes sys needConnector device DRM_NODE_MAX 0 s calls with
      | Opened s' calls' => Returns (true, s', calls')
      | Passed s' calls' =>
          OpenDrm_devices sys needConnector devices' s' calls'
      end
  end.

(** The vector [devices(numDevices)] after the second [drmGetDevices2]. *)
Definition device_vector (numDevices : Z) (stored : list drmDevice)
    : list (option drmDevice) :=
  take (Z.to_nat numDevices)
    (map Some stored ++ replicate (Z.to_nat numDevices) None).

Definition OpenDrm (sys : system_answers) (needConnector : bool)
    (s : CDRMUtils_members)
    : outcome (bool * CDRMUtils_members * list descriptor_call) :=
  let numDevices := device_count sys in
  if numDevices <=? 0 then Returns (false, s, [])
  else
    let '(ret, stored) := get_devices sys in
    if ret <? 0 then Returns (false, s, [])
    else
      OpenDrm_devices sys needConnector (device_vector numDevices stored) s [].

(** ** Statements about OpenDrm *)

(** The paths of the available nodes of a device, in the order of the inner
    loop, and those of all the devices, in the order of the two loops. *)
Definition node_paths (device : drmDevice) : list string :=
  map (nodes device)
    (filter (fun i => has_bits (available_nodes device)
                        (Z.shiftl 1 (Z.of_nat i)) = true)
       (seq 0 DRM_NODE_MAX)).

Definition candidates (devices : list drmDevice) : list string :=
  flat_map node_paths devices.

(** The node at [path] can be opened and, if connectors are needed, its
    resources can be listed. *)
Definition acceptable (sys : system_answers) (needConnector : bool)
    (path : string) : bool :=
  (0 <=? open_node sys path)
  && (negb needConnector
      || bool_decide (is_Some (connectors_of sys (open_node sys path)))).

(** The descriptor calls for nodes that are tried one after the other, while
    the descriptor [fd] is held. *)
Fixpoint attempts (sys : system_answers) (fd : Z) (paths : list string)
    : list descriptor_call :=
  match paths with
  | [] => []
  | path :: paths' =>
      sys_close fd :: sys_open path
      :: attempts sys (open_node sys path) paths'
  end.

(** The nodes at [paths] tried one after the other. *)
Fixpoint try_nodes (sys : system_answers) (needConnector : bool)
    (paths : list string) (s : CDRMUtils_members)
    (calls : list descriptor_call) : scan :=
  match paths with
  | [] => Passed s calls
  | path :: paths' =>
      match try_node sys needConnector path s calls with
      | Opened s' calls' => Opened s' calls'
      | Passed s' calls' => try_nodes sys needConnector paths' s' calls'
      end
  end.

(** The call that opens the render node of the descriptor [fd], if it has
    one, and the value [m_renderFd] has afterwards. *)
Definition render_call (sys : system_answers) (fd : Z)
    : list descriptor_call :=
  match render_node sys fd with
  | Some renderPath => [sys_open renderPath]
  | None => []
  end.

Definition render_fd (sys : system_answers) (fd before : Z) : Z :=
  match render_node sys fd with
  | Some renderPath => open_node sys renderPath
  | None => before
  end.

(** A system whose first call of [drmGetDevices2] announces [count] devices
    and whose second call stores two.  The first device has a primary node
    that cannot be opened and a render node; the second one has a primary
    node.  Resources can be listed on the descriptor [listable] only, and
    then show a single connector, which is disconnected. *)
Definition sample_system (count listable : Z) : system_answers :=
  {| device_count := count;
     get_devices :=
       (2, [ {| available_nodes := 5;
                nodes := fun i => match i with
                                  | O => "/dev/dri/card0"%string
                                  | _ => "/dev/dri/renderD128"%string
                                  end |};
             {| available_nodes := 1;
                nodes := fun _ => "/dev/dri/card1"%string |} ]);
     open_node := fun path =>
       if String.eqb path "/dev/dri/card0" then -1
       else if String.eqb path "/dev/dri/renderD128" then 4
       else if String.eqb path "/dev/dri/card1" then 5
       else 6;
     connectors_of := fun fd =>
       if fd =? listable
       then Some [ {| connector_of := {| modes := [] |};
                      GetConnectorId := 77; GetEncoderId := 0;
                      IsConnected := false |} ]
       else None;
     render_node := fun fd =>
       if fd =? 5 then Some "/dev/dri/renderD129"%string else None |}.

(** * Properties *)

(** ** GetResolutionInfo *)

Lemma has_bits_false x mask : has_bits x mask = false <-> Z.land x mask = 0.
Proof.
  unfold has_bits. rewrite negb_false_iff, Z.eqb_eq. reflexivity.
Qed.

(** A bit pattern inside a mask cannot be met when the mask is not. *)
Lemma has_bits_sub x sub mask :
  Z.land mask sub = sub -> has_bits x mask = false -> has_bits x sub = false.
Proof.
  intros Hsub Hm. apply has_bits_false in Hm. apply has_bits_false.
  rewrite <- Hsub, Z.land_assoc, Hm. apply Z.land_0_l.
Qed.

Lemma gui_size_cases limit mode :
  gui_size limit mode = (hdisplay mode, vdisplay mode)
  \/ (0 < limit /\ 1920 < hdisplay mode /\ 1080 < vdisplay mode).
Proof.
  unfold gui_size.
  destruct (limit >? 0) eqn:Hl; [|now left].
  destruct (hdisplay mode >? 1920) eqn:Hw; [|now left].
  destruct (vdisplay mode >? 1080) eqn:Hh; [|now left].
  right. lia.
Qed.

(** C6: the GUI size differs from the screen size only when the limit is
    positive and the screen is larger than 1920x1080 in both directions; a
    3840x2160 mode gives 1920x1080 under limit 3 at every refresh rate, and
    3840x2160 under limit 0. *)
Theorem GetResolutionInfo_gui_size_limit `{PresentFlags} res limit mode :
  let out := GetResolutionInfo res limit mode in
  ((iWidth out, iHeight out) <> (iScreenWidth out, iScreenHeight out) ->
     0 < limit /\ 1920 < hdisplay mode /\ 1080 < vdisplay mode)
  /\ (hdisplay mode = 3840 -> vdisplay mode = 2160 -> limit = 3 ->
      iWidth out = 1920 /\ iHeight out = 1080)
  /\ (hdisplay mode = 3840 -> vdisplay mode = 2160 -> limit = 0 ->
      iWidth out = 3840 /\ iHeight out = 2160).
Proof.
  cbn [GetResolutionInfo iWidth iHeight iScreenWidth iScreenHeight].
  split; [|split].
  - intros Hne. destruct (gui_size_cases limit mode) as [E|E]; [|exact E].
    rewrite E in Hne. now contradiction Hne.
  - intros Hw Hh ->. unfold gui_size. rewrite Hw, Hh. now split.
  - intros Hw Hh ->. unfold gui_size. rewrite Hw, Hh. now split.
Qed.

Lemma GetResolutionInfo_gui_size_limit_witness :
  let capped := GetResolutionInfo (H := sample_flags) cleared_info 3
                  (mode_2160p 60 594000 0) in
  let native := GetResolutionInfo (H := sample_flags) cleared_info 0
                  (mode_2160p 60 594000 0) in
  (0 < 3 /\ 1920 < 3840 /\ 1080 < 2160)
  /\ (iWidth capped = 1920 /\ iHeight capped = 1080)
  /\ (iWidth native = 3840 /\ iHeight native = 2160).
Proof.
  split; [|split].
  - apply (GetResolutionInfo_gui_size_limit (H := sample_flags) cleared_info 3
             (mode_2160p 60 594000 0)).
    vm_compute. discriminate.
  - apply (GetResolutionInfo_gui_size_limit (H := sample_flags) cleared_info 3
             (mode_2160p 60 594000 0)); reflexivity.
  - apply (GetResolutionInfo_gui_size_limit (H := sample_flags) cleared_info 0
             (mode_2160p 60 594000 0)); reflexivity.
Defined.

Lemma close_to_b_spec x p q k : close_to_b x p q k = true <-> close_to x p q k.
Proof. unfold close_to_b, close_to. apply Z.leb_le. Qed.

Lemma exactly_b_spec x z : exactly_b x z = true <-> exactly x z.
Proof. unfold exactly_b, exactly. apply Z.eqb_eq. Qed.

(** A property checked on every integer of [0 .. n] holds on the range. *)
Lemma forallb_range (P : Z -> bool) (n : nat) :
  forallb (fun i => P (Z.of_nat i)) (seq 0 (S n)) = true ->
  forall z, 0 <= z <= Z.of_nat n -> P z = true.
Proof.
  intros Hall z Hz. rewrite forallb_forall in Hall.
  rewrite <- (Z2Nat.id z) by lia. apply Hall, in_seq. lia.
Qed.

Lemma ntsc_rate_close v :
  0 <= v <= 1000 ->
  close_to (F32.mul (F32.of_Z v) ntsc_factor) (v * 1000) 1001 22.
Proof.
  intros Hv. apply close_to_b_spec.
  apply (forallb_range
           (fun v => close_to_b (F32.mul (F32.of_Z v) ntsc_factor)
                       (v * 1000) 1001 22)
           1000); [vm_compute; reflexivity | exact Hv].
Qed.

Lemma nominal_rate_exact v : 0 <= v <= 1000 -> exactly (F32.of_Z v) v.
Proof.
  intros Hv. apply exactly_b_spec.
  apply (forallb_range (fun v => exactly_b (F32.of_Z v) v) 1000);
    [vm_compute; reflexivity | exact Hv].
Qed.

(** C8: when the clock is not a multiple of 5 the refresh rate is the
    single-precision product of the nominal rate and 1000/1001, otherwise it is
    the nominal rate converted to single precision.  For nominal rates up to
    1000 Hz the product is within a relative 2^-22 of rate * 1000 / 1001 and the
    conversion is exact; a nominal 60 gives 15712928 / 2^18 = 59.94006... *)
Theorem GetResolutionInfo_refresh_rate `{PresentFlags} res limit mode :
  let rate := fRefreshRate (GetResolutionInfo res limit mode) in
  (clock mode mod 5 <> 0 ->
     rate = F32.mul (F32.of_Z (vrefresh mode)) ntsc_factor
     /\ (0 <= vrefresh mode <= 1000 ->
         close_to rate (vrefresh mode * 1000) 1001 22)
     /\ (vrefresh mode = 60 -> to_fraction rate = (15712928, 2 ^ 18)))
  /\ (clock mode mod 5 = 0 ->
      rate = F32.of_Z (vrefresh mode)
      /\ (0 <= vrefresh mode <= 1000 -> exactly rate (vrefresh mode))).
Proof.
  cbn [GetResolutionInfo fRefreshRate]. unfold refresh_rate. split.
  - intros Hc. apply Z.eqb_neq in Hc. rewrite Hc. cbn [negb].
    split; [reflexivity|]. split.
    + apply ntsc_rate_close.
    + intros ->. vm_compute. reflexivity.
  - intros Hc. apply Z.eqb_eq in Hc. rewrite Hc. cbn [negb].
    split; [reflexivity|]. apply nominal_rate_exact.
Qed.

Lemma GetResolutionInfo_refresh_rate_witness :
  let ntsc := fRefreshRate (GetResolutionInfo (H := sample_flags) cleared_info 0
                              (mode_1080p 60 148352 0)) in
  let even := fRefreshRate (GetResolutionInfo (H := sample_flags) cleared_info 0
                              (mode_1080p 60 148500 0)) in
  (close_to ntsc 60000 1001 22 /\ to_fraction ntsc = (15712928, 2 ^ 18))
  /\ exactly even 60.
Proof.
  split; [split|].
  - apply (GetResolutionInfo_refresh_rate (H := sample_flags) cleared_info 0
             (mode_1080p 60 148352 0)); [vm_compute; discriminate|].
    vm_compute. split; discriminate.
  - apply (GetResolutionInfo_refresh_rate (H := sample_flags) cleared_info 0
             (mode_1080p 60 148352 0)); [vm_compute; discriminate|reflexivity].
  - apply (GetResolutionInfo_refresh_rate (H := sample_flags) cleared_info 0
             (mode_1080p 60 148500 0)); [reflexivity|].
    vm_compute. split; discriminate.
Defined.

Lemma land_mask_tb :
  Z.land DRM_MODE_FLAG_3D_MASK DRM_MODE_FLAG_3D_TOP_AND_BOTTOM
  = DRM_MODE_FLAG_3D_TOP_AND_BOTTOM.
Proof. reflexivity. Qed.

Lemma land_mask_sbs :
  Z.land DRM_MODE_FLAG_3D_MASK DRM_MODE_FLAG_3D_SIDE_BY_SIDE_HALF
  = DRM_MODE_FLAG_3D_SIDE_BY_SIDE_HALF.
Proof. reflexivity. Qed.

(** Where some top-and-bottom or side-by-side-half bit is set, or no bit of
    the 3D mask is, the code follows the priority of the specification. *)
Lemma present_flags_priority `{PresentFlags} constructed mode :
  has_bits (flags mode) DRM_MODE_FLAG_3D_MASK = false
  \/ has_bits (flags mode) DRM_MODE_FLAG_3D_TOP_AND_BOTTOM = true
  \/ has_bits (flags mode) DRM_MODE_FLAG_3D_SIDE_BY_SIDE_HALF = true ->
  present_flags constructed mode = priority_flag mode.
Proof.
  unfold present_flags, priority_flag.
  destruct (has_bits (flags mode) DRM_MODE_FLAG_3D_MASK) eqn:Hm.
  - intros [Hf|[Ht|Hs]]; [discriminate| |].
    + now rewrite Ht.
    + rewrite Hs. reflexivity.
  - intros _.
    rewrite (has_bits_sub _ _ _ land_mask_tb Hm).
    rewrite (has_bits_sub _ _ _ land_mask_sbs Hm). reflexivity.
Qed.

(** C9, as the code has it: a set top-and-bottom bit gives the
    top-and-bottom flag; failing that, the side-by-side-half bit gives the
    side-by-side flag; interlaced and progressive are given only when no bit
    of the 3D mask is set; and when a bit of the 3D mask is set outside those
    two layouts, [dwFlags] keeps the value it was constructed with. *)
Theorem GetResolutionInfo_flags `{PresentFlags} res limit mode :
  let f := flags mode in
  let out := dwFlags (GetResolutionInfo res limit mode) in
  (has_bits f DRM_MODE_FLAG_3D_TOP_AND_BOTTOM = true ->
     out = D3DPRESENTFLAG_MODE3DTB)
  /\ (has_bits f DRM_MODE_FLAG_3D_TOP_AND_BOTTOM = false ->
      has_bits f DRM_MODE_FLAG_3D_SIDE_BY_SIDE_HALF = true ->
      out = D3DPRESENTFLAG_MODE3DSBS)
  /\ (has_bits f DRM_MODE_FLAG_3D_MASK = false ->
      has_bits f DRM_MODE_FLAG_INTERLACE = true ->
      out = D3DPRESENTFLAG_INTERLACED)
  /\ (has_bits f DRM_MODE_FLAG_3D_MASK = false ->
      has_bits f DRM_MODE_FLAG_INTERLACE = false ->
      out = D3DPRESENTFLAG_PROGRESSIVE)
  /\ (has_bits f DRM_MODE_FLAG_3D_MASK = true ->
      has_bits f DRM_MODE_FLAG_3D_TOP_AND_BOTTOM = false ->
      has_bits f DRM_MODE_FLAG_3D_SIDE_BY_SIDE_HALF = false ->
      out = dwFlags res).
Proof.
  cbn [GetResolutionInfo dwFlags].
  repeat split.
  - intros Ht. rewrite present_flags_priority by auto.
    unfold priority_flag. now rewrite Ht.
  - intros Ht Hs. rewrite present_flags_priority by auto.
    unfold priority_flag. now rewrite Ht, Hs.
  - intros Hm Hi. unfold present_flags. now rewrite Hm, Hi.
  - intros Hm Hi. unfold present_flags. now rewrite Hm, Hi.
  - intros Hm Ht Hs. unfold present_flags. now rewrite Hm, Ht, Hs.
Qed.

Lemma GetResolutionInfo_flags_witness :
  let out fl := dwFlags (GetResolutionInfo (H := sample_flags) cleared_info 0
                           (mode_1080p 60 148500 fl)) in
  out (Z.shiftl 7 14) = 16
  /\ out (Z.lor (Z.shiftl 8 14) 16) = 8
  /\ out 16 = 1
  /\ out 0 = 4
  /\ out (Z.shiftl 16 14) = 0.
Proof.
  intros out. split; [|split; [|split; [|split]]].
  - apply (GetResolutionInfo_flags (H := sample_flags) cleared_info 0
             (mode_1080p 60 148500 (Z.shiftl 7 14))); reflexivity.
  - apply (GetResolutionInfo_flags (H := sample_flags) cleared_info 0
             (mode_1080p 60 148500 (Z.lor (Z.shiftl 8 14) 16))); reflexivity.
  - apply (GetResolutionInfo_flags (H := sample_flags) cleared_info 0
             (mode_1080p 60 148500 16)); reflexivity.
  - apply (GetResolutionInfo_flags (H := sample_flags) cleared_info 0
             (mode_1080p 60 148500 0)); reflexivity.
  - apply (GetResolutionInfo_flags (H := sample_flags) cleared_info 0
             (mode_1080p 60 148500 (Z.shiftl 16 14))); reflexivity.
Defined.

(** Whatever value the constructor gives [dwFlags], and whatever distinct
    values the interlaced and progressive flags have, some mode is not mapped
    by the priority of the specification. *)
Lemma present_flags_not_priority `{PresentFlags} res limit :
  D3DPRESENTFLAG_INTERLACED <> D3DPRESENTFLAG_PROGRESSIVE ->
  exists fl,
    dwFlags (GetResolutionInfo res limit (mode_1080p 60 148500 fl))
    <> priority_flag (mode_1080p 60 148500 fl).
Proof.
  intros Hne.
  destruct (Z.eq_dec (dwFlags res) D3DPRESENTFLAG_PROGRESSIVE) as [E|E].
  - exists (Z.lor (Z.shiftl 16 14) 16).
    cbn [GetResolutionInfo dwFlags]. unfold present_flags, priority_flag.
    cbn [flags mode_1080p].
    change (has_bits _ DRM_MODE_FLAG_3D_MASK) with true.
    change (has_bits _ DRM_MODE_FLAG_3D_TOP_AND_BOTTOM) with false.
    change (has_bits _ DRM_MODE_FLAG_3D_SIDE_BY_SIDE_HALF) with false.
    change (has_bits _ DRM_MODE_FLAG_INTERLACE) with true.
    cbv iota. rewrite E. auto.
  - exists (Z.shiftl 16 14).
    cbn [GetResolutionInfo dwFlags]. unfold present_flags, priority_flag.
    cbn [flags mode_1080p].
    change (has_bits _ DRM_MODE_FLAG_3D_MASK) with true.
    change (has_bits _ DRM_MODE_FLAG_3D_TOP_AND_BOTTOM) with false.
    change (has_bits _ DRM_MODE_FLAG_3D_SIDE_BY_SIDE_HALF) with false.
    change (has_bits _ DRM_MODE_FLAG_INTERLACE) with false.
    cbv iota. exact E.
Qed.

(** C9 as stated fails: bit 18 lies in the 3D mask and in neither of the two
    layouts, so the mode is given none of the four flags, where the priority
    of the specification gives the progressive one. *)
Lemma GetResolutionInfo_flags_counterexample :
  let mode := mode_1080p 60 148500 (Z.shiftl 1 18) in
  let out :=
    dwFlags (GetResolutionInfo (H := sample_flags) cleared_info 0 mode) in
  has_bits (flags mode) DRM_MODE_FLAG_3D_MASK = true
  /\ out = 0
  /\ out <> D3DPRESENTFLAG_MODE3DTB (PresentFlags := sample_flags)
  /\ out <> D3DPRESENTFLAG_MODE3DSBS (PresentFlags := sample_flags)
  /\ out <> D3DPRESENTFLAG_INTERLACED (PresentFlags := sample_flags)
  /\ out <> D3DPRESENTFLAG_PROGRESSIVE (PresentFlags := sample_flags)
  /\ priority_flag (H := sample_flags) mode
     = D3DPRESENTFLAG_PROGRESSIVE (PresentFlags := sample_flags).
Proof. vm_compute. repeat split; discriminate. Qed.

(** ** FindPreferredMode *)

(** Within the range of [int] the area is the product itself. *)
Lemma current_area_exact mode :
  0 <= hdisplay mode * vdisplay mode < 2 ^ 31 ->
  current_area mode = hdisplay mode * vdisplay mode.
Proof.
  intros Hr. unfold current_area, wrap_int.
  rewrite Z.mod_small by lia. lia.
Qed.

(** No mode of the remaining list replaces the selection when none is
    preferred and none is larger than [area]. *)
Lemma FindPreferredMode_loop_keeps rest i mode area :
  Forall (fun m => is_preferred m = false /\ current_area m <= area) rest ->
  FindPreferredMode_loop rest i mode area = mode.
Proof.
  revert i. induction rest as [|m rest IH]; intros i Hall; [reflexivity|].
  apply Forall_cons in Hall as [[Hp Ha] Hall]. cbn [FindPreferredMode_loop].
  rewrite Hp. destruct (current_area m >? area) eqn:Hgt; [lia|].
  now apply IH.
Qed.

(** The loop ends without a selection only if it started without one and
    met no preferred mode and no mode larger than [area]. *)
Lemma FindPreferredMode_loop_none rest i mode area :
  FindPreferredMode_loop rest i mode area = None ->
  mode = None
  /\ Forall (fun m => is_preferred m = false /\ current_area m <= area) rest.
Proof.
  revert i mode area. induction rest as [|m rest IH]; intros i mode area.
  - cbn. intros ->. split; [reflexivity|constructor].
  - cbn [FindPreferredMode_loop].
    destruct (is_preferred m) eqn:Hp; [discriminate|].
    destruct (current_area m >? area) eqn:Hgt.
    + intros Hn. apply IH in Hn as [Hn _]. discriminate.
    + intros Hn. apply IH in Hn as [-> Hall]. split; [reflexivity|].
      constructor; [split; [assumption|lia]|assumption].
Qed.

(** A preferred mode ends the scan: the modes after it are not read. *)
Lemma FindPreferredMode_loop_preferred pre p rest i mode area :
  Forall (fun m => is_preferred m = false) pre ->
  is_preferred p = true ->
  FindPreferredMode_loop (pre ++ p :: rest) i mode area
  = Some (i + length pre)%nat.
Proof.
  revert i mode area. induction pre as [|m pre IH]; intros i mode area Hpre Hp.
  - cbn. rewrite Hp. f_equal. lia.
  - apply Forall_cons in Hpre as [Hm Hpre].
    cbn [app FindPreferredMode_loop length]. rewrite Hm.
    destruct (current_area m >? area); rewrite IH by assumption; f_equal; lia.
Qed.

(** Without a preferred mode, the loop selects the first mode of the largest
    area, when that area exceeds the one it started with. *)
Lemma FindPreferredMode_loop_largest rest i mode area k m :
  Forall (fun m => is_preferred m = false) rest ->
  rest !! k = Some m ->
  area < current_area m ->
  (forall j m', rest !! j = Some m' -> current_area m' <= current_area m) ->
  (forall j m', (j < k)%nat -> rest !! j = Some m' ->
     current_area m' < current_area m) ->
  FindPreferredMode_loop rest i mode area = Some (i + k)%nat.
Proof.
  revert i mode area k.
  induction rest as [|x rest IH]; intros i mode area k Hnp Hk Hlt Hmax Hfirst.
  - discriminate.
  - apply Forall_cons in Hnp as [Hx Hnp]. cbn [FindPreferredMode_loop].
    rewrite Hx. destruct k as [|k].
    + injection Hk as ->.
      destruct (current_area m >? area) eqn:Hgt; [|lia].
      rewrite FindPreferredMode_loop_keeps; [f_equal; lia|].
      apply Forall_forall. intros y Hy.
      split; [now apply (proj1 (Forall_forall _ _) Hnp)|].
      apply list_elem_of_lookup in Hy as [j Hj]. now apply (Hmax (S j)).
    + assert (Hxm : current_area x < current_area m)
        by (apply (Hfirst 0%nat); [lia|reflexivity]).
      assert (Hmax' : forall j m', rest !! j = Some m' ->
                        current_area m' <= current_area m)
        by (intros j m' Hj; now apply (Hmax (S j))).
      assert (Hfirst' : forall j m', (j < k)%nat -> rest !! j = Some m' ->
                          current_area m' < current_area m)
        by (intros j m' Hjk Hj; apply (Hfirst (S j)); [lia|assumption]).
      destruct (current_area x >? area) eqn:Hgt.
      * rewrite (IH (S i) (Some i) (current_area x) k) by assumption.
        f_equal. lia.
      * rewrite (IH (S i) mode area k) by assumption. f_equal. lia.
Qed.

(** C7, as the code has it, for a [CDRMUtils] with no mode selected: the
    first preferred mode is selected and the modes after it are not read;
    without a preferred mode the first mode of the largest area is selected,
    provided that area is positive; and the function fails exactly when no
    mode is preferred and no mode has a positive area. *)
Theorem FindPreferredMode_selects this :
  m_mode this = None ->
  let l := modes (m_connector this) in
  (forall pre p rest,
     l = pre ++ p :: rest ->
     Forall (fun m => is_preferred m = false) pre ->
     is_preferred p = true ->
     FindPreferredMode this = (true, set_m_mode this (Some (length pre))))
  /\ (forall i,
       Forall (fun m => is_preferred m = false) l ->
       first_largest l i ->
       FindPreferredMode this = (true, set_m_mode this (Some i)))
  /\ ((FindPreferredMode this).1 = false <->
       Forall (fun m => is_preferred m = false /\ current_area m <= 0) l).
Proof.
  intros Hm l. unfold FindPreferredMode. fold l. rewrite Hm.
  split; [|split].
  - intros pre p rest -> Hpre Hp.
    now rewrite FindPreferredMode_loop_preferred.
  - intros i Hnp (m & Hi & Hpos & Hmax & Hfirst).
    now rewrite (FindPreferredMode_loop_largest l 0 None 0 i m).
  - split.
    + destruct (FindPreferredMode_loop l 0 None 0) eqn:E; [discriminate|].
      intros _. now apply FindPreferredMode_loop_none in E as [_ Hall].
    + intros Hall. now rewrite FindPreferredMode_loop_keeps.
Qed.

Lemma FindPreferredMode_selects_witness :
  let preferred := with_modes [raw_mode 1920 1080 0; raw_mode 1280 720 8;
                               raw_mode 3840 2160 0] in
  let largest := with_modes [raw_mode 1280 720 0; raw_mode 1920 1080 0;
                             raw_mode 1920 1080 0; raw_mode 640 480 0] in
  let flat := with_modes [raw_mode 0 1080 0] in
  FindPreferredMode preferred = (true, set_m_mode preferred (Some 1%nat))
  /\ FindPreferredMode largest = (true, set_m_mode largest (Some 1%nat))
  /\ (FindPreferredMode flat).1 = false.
Proof.
  intros preferred largest flat. split; [|split].
  - apply (proj1 (FindPreferredMode_selects preferred eq_refl)
             [raw_mode 1920 1080 0] (raw_mode 1280 720 8)
             [raw_mode 3840 2160 0]).
    + reflexivity.
    + repeat constructor.
    + reflexivity.
  - apply (proj1 (proj2 (FindPreferredMode_selects largest eq_refl)) 1%nat).
    + repeat constructor.
    + exists (raw_mode 1920 1080 0). split; [reflexivity|].
      split; [reflexivity|]. split.
      * intros [|[|[|[|j]]]] m' Hj; try discriminate;
          injection Hj as <-; vm_compute; discriminate.
      * intros [|j] m' Hlt Hj; [|lia].
        injection Hj as <-. reflexivity.
  - apply (proj2 (FindPreferredMode_selects flat eq_refl)).
    repeat constructor. vm_compute. discriminate.
Defined.

(** C7 as stated fails: a mode list that is not empty, whose only mode has
    no area and is not preferred, makes the function fail. *)
Lemma FindPreferredMode_counterexample :
  let this := with_modes [raw_mode 0 1080 0] in
  modes (m_connector this) <> []
  /\ (Forall (fun m => is_preferred m = false) (modes (m_connector this)))
  /\ FindPreferredMode this = (false, this).
Proof.
  split; [discriminate|]. split; [repeat constructor|reflexivity].
Qed.

(** ** find_if *)

Section FindIf.
Context {A : Type} (P : A -> bool).

Lemma find_if_Some (l : list A) x : l !! find_if P l = Some x -> P x = true.
Proof.
  induction l as [|y l IH]; cbn [find_if]; [discriminate|].
  destruct (P y) eqn:Hy; [|exact IH].
  intros Hx. injection Hx as <-. exact Hy.
Qed.

Lemma find_if_before (l : list A) k y :
  (k < find_if P l)%nat -> l !! k = Some y -> P y = false.
Proof.
  revert k. induction l as [|z l IH]; intros k; cbn [find_if]; [lia|].
  destruct (P z) eqn:Hz; [lia|]. destruct k as [|k].
  - intros _ Hk. injection Hk as <-. exact Hz.
  - intros Hlt Hk. apply (IH k); [lia|exact Hk].
Qed.

Lemma find_if_None (l : list A) :
  l !! find_if P l = None -> forall x, x ∈ l -> P x = false.
Proof.
  induction l as [|y l IH]; cbn [find_if]; intros Hn x Hx.
  - inversion Hx.
  - destruct (P y) eqn:Hy; [discriminate|].
    apply elem_of_cons in Hx as [->|Hx]; [exact Hy|now apply IH].
Qed.

Lemma find_if_first (l : list A) j x :
  l !! j = Some x -> P x = true ->
  (forall k y, (k < j)%nat -> l !! k = Some y -> P y = false) ->
  find_if P l = j.
Proof.
  revert j. induction l as [|y l IH]; intros j Hj Hx Hbefore; [discriminate|].
  cbn [find_if]. destruct j as [|j].
  - injection Hj as ->. now rewrite Hx.
  - rewrite (Hbefore 0%nat y) by (lia || reflexivity).
    f_equal. apply IH; [exact Hj|exact Hx|].
    intros k z Hk Hz. apply (Hbefore (S k)); [lia|exact Hz].
Qed.

Lemma find_if_first_match (l : list A) x :
  first_match P l x <-> l !! find_if P l = Some x.
Proof.
  split.
  - intros (j & Hj & Hx & Hbefore).
    now rewrite (find_if_first l j x).
  - intros Hx. exists (find_if P l). split; [exact Hx|].
    split; [now apply (find_if_Some l)|apply find_if_before].
Qed.

End FindIf.


(** ** FindPlanes *)



(** A GUI candidate is attachable, has another identity than the video
    plane, and supports the opaque format. *)
Lemma is_gui_plane_XRGB i id p :
  is_gui_plane i id p = true ->
  on_crtc p i = true
  /\ GetPlaneId p <> id
  /\ SupportsFormat p DRM_FORMAT_XRGB8888 = true.
Proof.
  unfold is_gui_plane. destruct (on_crtc p i); [|discriminate].
  intros Hg. apply andb_prop in Hg as [Hg Hx]. apply andb_prop in Hg as [Hg _].
  apply negb_true_iff, Z.eqb_neq in Hg. auto.
Qed.

(** What one round of the loop does on a CRTC, by the planes found. *)
Lemma FindPlanes_loop_step crtc crtcs i this :
  FindPlanes_loop (Some crtc :: crtcs) i this
  = let videoPlane := find_if (is_video_plane i) (m_planes this) in
    let videoPlaneId :=
      match m_planes this !! videoPlane with
      | Some p => GetPlaneId p
      | None => 0
      end in
    let guiPlane := find_if (is_gui_plane i videoPlaneId) (m_planes this) in
    match m_planes this !! videoPlane, m_planes this !! guiPlane with
    | Some video, Some gui =>
        set_planes this (Some crtc) (Some video) (Some gui)
    | _, Some gui =>
        match m_crtc this with
        | None =>
            if encoder_crtc_id (m_encoder this) =? crtc_id crtc
            then FindPlanes_loop crtcs (S i)
                   (set_planes this (Some crtc) (m_video_plane this)
                      (Some gui))
            else FindPlanes_loop crtcs (S i) this
        | Some _ => FindPlanes_loop crtcs (S i) this
        end
    | _, None => FindPlanes_loop crtcs (S i) this
    end.
Proof. reflexivity. Qed.







(** Why plane identities are taken to be non-zero: the code uses 0 for "no
    video plane", so a video plane of identity 0 lets a GUI plane through
    that does not support the alpha format. *)
Lemma FindPlanes_identity_zero :
  full_crtc_with (m_planes overlay_zero) 0 (plane 0 1 [DRM_FORMAT_NV12])
  /\ FindPlanes overlay_zero
     = Returns (true, set_planes overlay_zero (crtc 41)
                        (Some (plane 0 1 [DRM_FORMAT_NV12]))
                        (Some (plane 5 1 [DRM_FORMAT_XRGB8888])))
  /\ SupportsFormat (plane 5 1 [DRM_FORMAT_XRGB8888]) DRM_FORMAT_ARGB8888
     = false.
Proof.
  split; [|split; reflexivity]. split.
  - exists 0%nat. split; [reflexivity|]. split; [reflexivity|]. lia.
  - exists (plane 6 1 [DRM_FORMAT_XRGB8888; DRM_FORMAT_ARGB8888]).
    split; [do 2 right; left|reflexivity].
Qed.




(** Where no attachable plane supports the opaque format, the loop selects
    no GUI plane. *)
Lemma FindPlanes_loop_no_gui crtcs i this :
  (forall j c p, crtcs !! j = Some (Some c) -> p ∈ m_planes this ->
     on_crtc p (i + j) = true ->
     SupportsFormat p DRM_FORMAT_XRGB8888 = false) ->
  FindPlanes_loop crtcs i this = this.
Proof.
  revert i. induction crtcs as [|[c|] crtcs IH]; intros i Hno.
  - reflexivity.
  - assert (Hend : forall id,
              m_planes this !! find_if (is_gui_plane i id) (m_planes this)
              = None).
    { intros id.
      destruct (m_planes this !! find_if (is_gui_plane i id) (m_planes this))
        as [g|] eqn:Hg; [|reflexivity].
      pose proof (list_elem_of_lookup_2 _ _ _ Hg) as Hin.
      apply find_if_Some, is_gui_plane_XRGB in Hg as (Hon & _ & Hx).
      rewrite (Hno 0%nat c g) in Hx; [discriminate|reflexivity|exact Hin|].
      now replace (i + 0)%nat with i by lia. }
    assert (IH' : FindPlanes_loop crtcs (S i) this = this).
    { apply IH. intros j c' p Hj Hp Hon. apply (Hno (S j) c' p Hj Hp).
      now replace (i + S j)%nat with (S i + j)%nat by lia. }
    rewrite FindPlanes_loop_step. cbv zeta. rewrite !Hend.
    now destruct (m_planes this !! find_if (is_video_plane i) (m_planes this)).
  - cbn [FindPlanes_loop]. apply IH.
    intros j c' p Hj Hp Hon. apply (Hno (S j) c' p Hj Hp).
    now replace (i + S j)%nat with (S i + j)%nat by lia.
Qed.

(** C1, on the code: the function has no failing return.  It returns [true]
    or reads the identity of the GUI plane through a null [m_gui_plane]; the
    latter is what it does when it starts without a GUI plane and no CRTC has
    an attachable plane for the opaque format, as on [video_only]. *)
Theorem FindPlanes_reports_no_failure :
  FindPlanes video_only = Undefined NullDeref
  /\ (forall this,
        FindPlanes this = Undefined NullDeref
        \/ exists this', FindPlanes this = Returns (true, this'))
  /\ (forall this,
        m_gui_plane this = None ->
        no_gui_plane (m_crtcs this) (m_planes this) ->
        FindPlanes this = Undefined NullDeref).
Proof.
  split; [reflexivity|]. split.
  - intros this. unfold FindPlanes.
    destruct (m_gui_plane (FindPlanes_loop (m_crtcs this) 0 this));
      [right; eexists; reflexivity|now left].
  - intros this Hnone Hno. unfold FindPlanes.
    rewrite FindPlanes_loop_no_gui; [now rewrite Hnone|].
    intros j c p Hj Hp Hon. now apply (Hno j c p).
Qed.

Lemma FindPlanes_reports_no_failure_witness :
  FindPlanes (resolver 41 [crtc 41; crtc 42]
                [plane 31 1 [DRM_FORMAT_NV12]; plane 32 2 []])
  = Undefined NullDeref.
Proof.
  apply FindPlanes_reports_no_failure; [reflexivity|].
  intros i c p Hi Hp Hon.
  apply elem_of_cons in Hp as [->|Hp]; [reflexivity|].
  apply elem_of_cons in Hp as [->|Hp]; [reflexivity|].
  inversion Hp.
Defined.

(** ** DrmFbGetFromBo *)

Lemma new_drm_fb_fresh w : heap w !! new_drm_fb w = None.
Proof. unfold new_drm_fb. apply not_elem_of_dom. apply is_fresh. Qed.

Section BinderProperties.
Variable HAS_GBM_MODIFIERS : bool.
Variable driver : list drm_call -> drm_call -> option Z.

Abbreviation do_register := (register HAS_GBM_MODIFIERS driver).
Abbreviation first_call := (AddFB2WithModifiers_call HAS_GBM_MODIFIERS).
Abbreviation second_call := (AddFB2_call HAS_GBM_MODIFIERS).

Lemma lookup_cached_none this b w :
  bo_user_data b = None -> lookup_cached this b w = Returns (Miss w).
Proof. intros Hn. unfold lookup_cached. now rewrite Hn. Qed.

Lemma lookup_cached_hit this b w a fb gui :
  bo_user_data b = Some a -> heap w !! a = Some fb ->
  m_gui_plane this = Some gui -> GetFormat gui = format fb ->
  lookup_cached this b w = Returns (Hit a).
Proof.
  intros Ha Hfb Hgui Hfmt. unfold lookup_cached.
  rewrite Ha, Hgui, Hfb, Hfmt, Z.eqb_refl. reflexivity.
Qed.

(** The modifier-aware request succeeds: nothing else is asked. *)
Lemma register_first this b w gui id :
  m_gui_plane this = Some gui ->
  driver (calls w) (first_call (m_fd this) (GetFormat gui) b) = Some id ->
  do_register this b w
  = Returns (Some (new_drm_fb w),
             gbm_bo_set_user_data b (new_drm_fb w) DrmFbDestroyCallback_fn,
             {| heap := <[new_drm_fb w := registered b gui id]> (heap w);
                calls := calls w
                         ++ [first_call (m_fd this) (GetFormat gui) b] |}).
Proof.
  intros Hgui Hd. unfold register, store_fb, request, registered.
  rewrite Hgui. cbn [calls heap]. rewrite Hd.
  now rewrite insert_insert_eq.
Qed.

(** The modifier-aware request fails and the legacy one succeeds. *)
Lemma register_second this b w gui id :
  m_gui_plane this = Some gui ->
  driver (calls w) (first_call (m_fd this) (GetFormat gui) b) = None ->
  driver (calls w ++ [first_call (m_fd this) (GetFormat gui) b])
         (second_call (m_fd this) (GetFormat gui) b) = Some id ->
  do_register this b w
  = Returns (Some (new_drm_fb w),
             gbm_bo_set_user_data b (new_drm_fb w) DrmFbDestroyCallback_fn,
             {| heap := <[new_drm_fb w := registered b gui id]> (heap w);
                calls := calls w
                         ++ [first_call (m_fd this) (GetFormat gui) b;
                             second_call (m_fd this) (GetFormat gui) b] |}).
Proof.
  intros Hgui Hd1 Hd2. unfold register, store_fb, request, registered.
  rewrite Hgui. cbn [calls heap]. rewrite Hd1, Hd2.
  now rewrite insert_insert_eq, <- app_assoc.
Qed.

(** Both requests fail: the new [drm_fb] is deleted and the buffer is left
    as it was. *)
Lemma register_neither this b w gui :
  m_gui_plane this = Some gui ->
  driver (calls w) (first_call (m_fd this) (GetFormat gui) b) = None ->
  driver (calls w ++ [first_call (m_fd this) (GetFormat gui) b])
         (second_call (m_fd this) (GetFormat gui) b) = None ->
  do_register this b w
  = Returns (None, b,
             {| heap := heap w;
                calls := calls w
                         ++ [first_call (m_fd this) (GetFormat gui) b;
                             second_call (m_fd this) (GetFormat gui) b] |}).
Proof.
  intros Hgui Hd1 Hd2. unfold register, store_fb, request, delete_fb.
  rewrite Hgui. cbn [calls heap]. rewrite Hd1, Hd2.
  rewrite delete_insert_id by apply new_drm_fb_fresh.
  now rewrite <- app_assoc.
Qed.

(** A registration that returns a framebuffer has attached it to the
    buffer, in the format of the GUI plane. *)
Lemma register_returns this b w a b' w' :
  do_register this b w = Returns (Some a, b', w') ->
  exists gui fb,
    m_gui_plane this = Some gui
    /\ bo_user_data b' = Some a
    /\ heap w' !! a = Some fb
    /\ format fb = GetFormat gui.
Proof.
  unfold register. destruct (m_gui_plane this) as [gui|]; [|discriminate].
  intros Hr. exists gui.
  destruct (driver _ _) as [id|] in Hr.
  - injection Hr as <- <- <-. eexists. split; [reflexivity|].
    split; [reflexivity|]. unfold store_fb. cbn [heap].
    split; [apply lookup_insert_eq|reflexivity].
  - destruct (driver _ _) as [id|] in Hr; [|discriminate].
    injection Hr as <- <- <-. eexists. split; [reflexivity|].
    split; [reflexivity|]. unfold store_fb. cbn [heap].
    split; [apply lookup_insert_eq|reflexivity].
Qed.

(** Whatever a registration returns, it has made the modifier-aware request
    first. *)
Lemma register_requests this b w gui r b' w' :
  m_gui_plane this = Some gui ->
  do_register this b w = Returns (r, b', w') ->
  exists more,
    calls w' = calls w ++ first_call (m_fd this) (GetFormat gui) b :: more.
Proof.
  intros Hgui.
  destruct (driver (calls w) (first_call (m_fd this) (GetFormat gui) b))
    as [id|] eqn:Hd1.
  - rewrite (register_first this b w gui id Hgui Hd1).
    intros Hr. injection Hr as _ _ <-. now exists [].
  - destruct (driver (calls w ++ [first_call (m_fd this) (GetFormat gui) b])
                (second_call (m_fd this) (GetFormat gui) b)) as [id|] eqn:Hd2.
    + rewrite (register_second this b w gui id Hgui Hd1 Hd2).
      intros Hr. injection Hr as _ _ <-. now eexists.
    + rewrite (register_neither this b w gui Hgui Hd1 Hd2).
      intros Hr. injection Hr as _ _ <-. now eexists.
Qed.

(** A registration changes the buffer only by attaching the framebuffer it
    returns. *)
Lemma register_buffer this b w r b' w' :
  do_register this b w = Returns (r, b', w') ->
  match r with
  | None => b' = b
  | Some fb => b' = gbm_bo_set_user_data b fb DrmFbDestroyCallback_fn
  end.
Proof.
  unfold register. destruct (m_gui_plane this) as [gui|]; [|discriminate].
  destruct (driver _ _) as [id|].
  - intros Hr. now injection Hr as <- <- _.
  - destruct (driver _ _) as [id|]; intros Hr; now injection Hr as <- <- _.
Qed.

(** C4: a buffer that carries a framebuffer in the format of the GUI plane
    gets that framebuffer back, with the buffer, the heap and the list of
    driver requests unchanged; and a call that returned a framebuffer is
    followed by a call that returns the same one, again with nothing
    changed. *)
Theorem DrmFbGetFromBo_idempotent this b w :
  (forall a fb gui,
     bo_user_data b = Some a -> heap w !! a = Some fb ->
     m_gui_plane this = Some gui -> GetFormat gui = format fb ->
     DrmFbGetFromBo HAS_GBM_MODIFIERS driver this b w = Returns (Some a, b, w))
  /\ (forall a b' w',
       DrmFbGetFromBo HAS_GBM_MODIFIERS driver this b w
       = Returns (Some a, b', w') ->
       DrmFbGetFromBo HAS_GBM_MODIFIERS driver this b' w'
       = Returns (Some a, b', w')).
Proof.
  assert (Hfast : forall b w a fb gui,
            bo_user_data b = Some a -> heap w !! a = Some fb ->
            m_gui_plane this = Some gui -> GetFormat gui = format fb ->
            DrmFbGetFromBo HAS_GBM_MODIFIERS driver this b w
            = Returns (Some a, b, w)).
  { intros b0 w0 a fb gui Ha Hfb Hgui Hfmt. unfold DrmFbGetFromBo.
    now rewrite (lookup_cached_hit this b0 w0 a fb gui). }
  split; [apply Hfast|].
  intros a b' w' Hcall. unfold DrmFbGetFromBo in Hcall.
  destruct (lookup_cached this b w) as [[hit|w1]|f] eqn:Hc; [| |discriminate].
  - injection Hcall as <- <- <-.
    unfold DrmFbGetFromBo. now rewrite Hc.
  - apply register_returns in Hcall as (gui & fb & Hgui & Ha & Hfb & Hfmt).
    now apply (Hfast b' w' a fb gui).
Qed.

(** C5: once the first block has found nothing to return, the modifier-aware
    request is made first.  If the driver accepts it no other request is
    made; if not, the legacy request, which carries no modifiers, follows; if
    the driver refuses both, the function returns null and the [drm_fb] it had
    allocated is live no more. *)
Theorem DrmFbGetFromBo_registration_order this b w w1 gui :
  lookup_cached this b w = Returns (Miss w1) ->
  m_gui_plane this = Some gui ->
  let fb := new_drm_fb w1 in
  let first := first_call (m_fd this) (GetFormat gui) b in
  let second := second_call (m_fd this) (GetFormat gui) b in
  (forall id,
     driver (calls w1) first = Some id ->
     DrmFbGetFromBo HAS_GBM_MODIFIERS driver this b w
     = Returns (Some fb, gbm_bo_set_user_data b fb DrmFbDestroyCallback_fn,
                {| heap := <[fb := registered b gui id]> (heap w1);
                   calls := calls w1 ++ [first] |}))
  /\ (forall id,
       driver (calls w1) first = None ->
       driver (calls w1 ++ [first]) second = Some id ->
       DrmFbGetFromBo HAS_GBM_MODIFIERS driver this b w
       = Returns (Some fb, gbm_bo_set_user_data b fb DrmFbDestroyCallback_fn,
                  {| heap := <[fb := registered b gui id]> (heap w1);
                     calls := calls w1 ++ [first; second] |}))
  /\ (driver (calls w1) first = None ->
      driver (calls w1 ++ [first]) second = None ->
      DrmFbGetFromBo HAS_GBM_MODIFIERS driver this b w
      = Returns (None, b,
                 {| heap := heap w1; calls := calls w1 ++ [first; second] |})
      /\ heap w1 !! fb = None).
Proof.
  intros Hmiss Hgui fb first second. unfold DrmFbGetFromBo. rewrite Hmiss.
  split; [|split].
  - intros id Hd. now apply register_first.
  - intros id Hd1 Hd2. now apply register_second.
  - intros Hd1 Hd2. split; [now apply register_neither|].
    apply new_drm_fb_fresh.
Qed.

(** C10: for a buffer that carries no framebuffer, when the driver refuses
    both requests the function returns null with the buffer and the heap as
    they were; a second call on that buffer makes the modifier-aware request
    again, and succeeds if the driver now accepts it.  Whatever the driver
    answers, the buffer changes only when a framebuffer is returned, by
    getting that framebuffer and the destroy callback attached. *)
Theorem DrmFbGetFromBo_failure_keeps_buffer this b w gui :
  bo_user_data b = None ->
  m_gui_plane this = Some gui ->
  let first := first_call (m_fd this) (GetFormat gui) b in
  let second := second_call (m_fd this) (GetFormat gui) b in
  let w' := {| heap := heap w; calls := calls w ++ [first; second] |} in
  (driver (calls w) first = None ->
   driver (calls w ++ [first]) second = None ->
   DrmFbGetFromBo HAS_GBM_MODIFIERS driver this b w = Returns (None, b, w')
   /\ (forall r b2 w2,
         DrmFbGetFromBo HAS_GBM_MODIFIERS driver this b w'
         = Returns (r, b2, w2) ->
         exists more, calls w2 = calls w' ++ first :: more)
   /\ (forall id,
         driver (calls w') first = Some id ->
         DrmFbGetFromBo HAS_GBM_MODIFIERS driver this b w'
         = Returns (Some (new_drm_fb w'),
                    gbm_bo_set_user_data b (new_drm_fb w')
                      DrmFbDestroyCallback_fn,
                    {| heap :=
                         <[new_drm_fb w' := registered b gui id]> (heap w');
                       calls := calls w' ++ [first] |})))
  /\ (forall r b1 w1,
        DrmFbGetFromBo HAS_GBM_MODIFIERS driver this b w
        = Returns (r, b1, w1) ->
        match r with
        | None => b1 = b
        | Some fb => b1 = gbm_bo_set_user_data b fb DrmFbDestroyCallback_fn
        end).
Proof.
  intros Hnone Hgui first second w'.
  assert (Hcall : forall w0,
            DrmFbGetFromBo HAS_GBM_MODIFIERS driver this b w0
            = do_register this b w0).
  { intros w0. unfold DrmFbGetFromBo.
    now rewrite (lookup_cached_none this b w0 Hnone). }
  split.
  - intros Hd1 Hd2. split; [|split].
    + rewrite Hcall. now apply register_neither.
    + intros r b2 w2. rewrite Hcall. now apply register_requests.
    + intros id Hd. rewrite Hcall. now apply register_first.
  - intros r b1 w1. rewrite Hcall. apply register_buffer.
Qed.
End BinderProperties.

Lemma DrmFbGetFromBo_idempotent_witness :
  let gui := plane 33 2 [DRM_FORMAT_XRGB8888; DRM_FORMAT_ARGB8888] in
  let fb := new_drm_fb empty_world in
  let b' := gbm_bo_set_user_data plain_buffer fb DrmFbDestroyCallback_fn in
  let w' :=
    {| heap := <[fb := registered plain_buffer gui 5]> (heap empty_world);
       calls := [AddFB2WithModifiers_call true 3 DRM_FORMAT_XRGB8888
                   plain_buffer] |} in
  DrmFbGetFromBo true accepting with_gui_plane bound_buffer bound_world
  = Returns (Some 1%positive, bound_buffer, bound_world)
  /\ DrmFbGetFromBo true accepting with_gui_plane b' w'
     = Returns (Some fb, b', w').
Proof.
  intros gui fb b' w'. split.
  - apply (proj1 (DrmFbGetFromBo_idempotent true accepting with_gui_plane
                    bound_buffer bound_world)
             1%positive
             {| bo := 4096; fb_id := Some 5; format := DRM_FORMAT_XRGB8888 |}
             gui);
      reflexivity.
  - apply (proj2 (DrmFbGetFromBo_idempotent true accepting with_gui_plane
                    plain_buffer empty_world)).
    reflexivity.
Defined.

Lemma DrmFbGetFromBo_registration_order_witness :
  let gui := plane 33 2 [DRM_FORMAT_XRGB8888; DRM_FORMAT_ARGB8888] in
  let first :=
    AddFB2WithModifiers_call true 3 DRM_FORMAT_XRGB8888 plain_buffer in
  let second := AddFB2_call true 3 DRM_FORMAT_XRGB8888 plain_buffer in
  let fb := new_drm_fb empty_world in
  let b' := gbm_bo_set_user_data plain_buffer fb DrmFbDestroyCallback_fn in
  let torn_down :=
    delete_fb 1%positive (request stale_world (drmModeRmFB 3 5)) in
  DrmFbGetFromBo true accepting with_gui_plane plain_buffer empty_world
  = Returns (Some fb, b',
             {| heap := <[fb := registered plain_buffer gui 5]> ∅;
                calls := [first] |})
  /\ DrmFbGetFromBo true legacy_only with_gui_plane plain_buffer empty_world
     = Returns (Some fb, b',
                {| heap := <[fb := registered plain_buffer gui 5]> ∅;
                   calls := [first; second] |})
  /\ DrmFbGetFromBo true refusing with_gui_plane plain_buffer empty_world
     = Returns (None, plain_buffer, {| heap := ∅; calls := [first; second] |})
  /\ DrmFbGetFromBo true refusing with_gui_plane bound_buffer stale_world
     = Returns (None, bound_buffer,
                {| heap := heap torn_down;
                   calls := [drmModeRmFB 3 5; first; second] |}).
Proof.
  intros gui first second fb b' torn_down. split; [|split; [|split]].
  - apply (proj1 (DrmFbGetFromBo_registration_order true accepting
                    with_gui_plane plain_buffer empty_world empty_world gui
                    eq_refl eq_refl)).
    reflexivity.
  - apply (proj1 (proj2 (DrmFbGetFromBo_registration_order true legacy_only
                    with_gui_plane plain_buffer empty_world empty_world gui
                    eq_refl eq_refl))); reflexivity.
  - apply (proj2 (proj2 (DrmFbGetFromBo_registration_order true refusing
                    with_gui_plane plain_buffer empty_world empty_world gui
                    eq_refl eq_refl))); reflexivity.
  - apply (proj2 (proj2 (DrmFbGetFromBo_registration_order true refusing
                    with_gui_plane bound_buffer stale_world torn_down gui
                    eq_refl eq_refl))); reflexivity.
Defined.

Lemma DrmFbGetFromBo_failure_keeps_buffer_witness :
  let first :=
    AddFB2WithModifiers_call true 3 DRM_FORMAT_XRGB8888 plain_buffer in
  let second := AddFB2_call true 3 DRM_FORMAT_XRGB8888 plain_buffer in
  DrmFbGetFromBo true refusing with_gui_plane plain_buffer empty_world
  = Returns (None, plain_buffer, {| heap := ∅; calls := [first; second] |})
  /\ bo_destroy plain_buffer = None.
Proof.
  intros first second. split; [|reflexivity].
  apply (proj1 (DrmFbGetFromBo_failure_keeps_buffer true refusing
                  with_gui_plane plain_buffer empty_world
                  (plane 33 2 [DRM_FORMAT_XRGB8888; DRM_FORMAT_ARGB8888])
                  eq_refl eq_refl)); reflexivity.
Defined.

(** * Further properties *)

(** ** FourCC helpers *)

Lemma land_byte a : 0 <= a < 256 -> Z.land a 255 = a.
Proof.
  intros Ha. change 255 with (Z.ones 8).
  rewrite Z.land_ones by lia. apply Z.mod_small. lia.
Qed.

Lemma shiftr_byte a : 0 <= a < 256 -> Z.shiftr a 8 = 0.
Proof.
  intros Ha. rewrite Z.shiftr_div_pow2 by lia. apply Z.div_small. lia.
Qed.

(** Dropping the first character of a packed code moves the others down. *)
Lemma fourcc_code_shiftr a b c d :
  0 <= a < 256 ->
  Z.shiftr (fourcc_code a b c d) 8 = fourcc_code b c d 0.
Proof.
  intros Ha. unfold fourcc_code.
  rewrite !Z.shiftr_lor, (shiftr_byte a Ha), Z.lor_0_l.
  rewrite !Z.shiftr_shiftl_l by lia.
  change (8 - 8) with 0. change (16 - 8) with 8. change (24 - 8) with 16.
  rewrite !Z.shiftl_0_r, Z.shiftl_0_l, Z.lor_0_r.
  now rewrite Z.lor_assoc.
Qed.

Lemma fourcc_code_low a b c d :
  0 <= a < 256 -> Z.land (fourcc_code a b c d) 255 = a.
Proof.
  intros Ha. unfold fourcc_code. rewrite !Z.land_lor_distr_l.
  rewrite (land_byte a Ha).
  change 255 with (Z.ones 8). rewrite !Z.land_ones by lia.
  rewrite !Z.shiftl_mul_pow2 by lia.
  replace (c * 2 ^ 16) with (c * 2 ^ 8 * 2 ^ 8) by lia.
  replace (d * 2 ^ 24) with (d * 2 ^ 16 * 2 ^ 8) by lia.
  rewrite !Z.mod_mul by lia. now rewrite !Z.lor_0_r.
Qed.

(** The mask of each character, applied after the shift. *)
Lemma land_shiftr_mask x k :
  0 <= k -> Z.shiftr (Z.land x (Z.shiftl 255 k)) k = Z.land (Z.shiftr x k) 255.
Proof.
  intros Hk. rewrite Z.shiftr_land, Z.shiftr_shiftl_l by lia.
  now rewrite Z.sub_diag, Z.shiftl_0_r.
Qed.

(** The characters of [FourCCToString], read off the shifted code. *)
Lemma FourCCToString_shifts fourcc :
  FourCCToString fourcc
  = String (to_char (Z.land fourcc 255))
      (String (to_char (Z.land (Z.shiftr fourcc 8) 255))
         (String (to_char (Z.land (Z.shiftr fourcc 16) 255))
            (String (to_char (Z.land (Z.shiftr fourcc 24) 255))
               EmptyString))).
Proof.
  unfold FourCCToString.
  change 65280 with (Z.shiftl 255 8).
  change 16711680 with (Z.shiftl 255 16).
  change 4278190080 with (Z.shiftl 255 24).
  now rewrite !land_shiftr_mask by lia.
Qed.

(** X1: the string of a code packed from four bytes is made of those four
    bytes, in the order they were packed. *)
Theorem FourCCToString_fourcc_code a b c d :
  0 <= a < 256 -> 0 <= b < 256 -> 0 <= c < 256 -> 0 <= d < 256 ->
  FourCCToString (fourcc_code a b c d)
  = String (to_char a) (String (to_char b) (String (to_char c)
      (String (to_char d) EmptyString))).
Proof.
  intros Ha Hb Hc Hd. rewrite FourCCToString_shifts.
  change 16 with (8 + 8) at 1. change 24 with (8 + 8 + 8).
  rewrite <- !Z.shiftr_shiftr by lia.
  rewrite (fourcc_code_shiftr a b c d Ha), (fourcc_code_shiftr b c d 0 Hb).
  rewrite (fourcc_code_shiftr c d 0 0 Hc).
  now rewrite !fourcc_code_low by assumption.
Qed.

Lemma FourCCToString_fourcc_code_witness :
  FourCCToString (fourcc_code 78 86 49 50) = "NV12"%string.
Proof.
  apply (FourCCToString_fourcc_code 78 86 49 50); lia.
Defined.

(** The low byte of a code whose low byte was replaced. *)
Lemma replaced_low fourcc ch :
  0 <= ch < 256 -> Z.land (Z.lor (Z.land fourcc 4294967040) ch) 255 = ch.
Proof.
  intros Hch. rewrite Z.land_lor_distr_l, <- Z.land_assoc.
  change (Z.land 4294967040 255) with 0.
  now rewrite Z.land_0_r, Z.lor_0_l, land_byte.
Qed.

(** A character above the first one is not touched by the replacement. *)
Lemma replaced_other fourcc ch k :
  Z.shiftr ch k = 0 ->
  Z.land (Z.shiftr 4294967040 k) 255 = 255 ->
  Z.land (Z.shiftr (Z.lor (Z.land fourcc 4294967040) ch) k) 255
  = Z.land (Z.shiftr fourcc k) 255.
Proof.
  intros Hch Hmask.
  rewrite Z.shiftr_lor, Hch, Z.lor_0_r, Z.shiftr_land.
  now rewrite <- Z.land_assoc, Hmask.
Qed.

Lemma FourCCToString_replaced fourcc ch :
  0 <= ch < 256 ->
  FourCCToString (Z.lor (Z.land fourcc 4294967040) ch)
  = String (to_char ch) (behead (FourCCToString fourcc)).
Proof.
  intros Hch. rewrite !FourCCToString_shifts. cbn [behead].
  rewrite (replaced_low fourcc ch Hch).
  assert (H8 : Z.shiftr ch 8 = 0) by now apply shiftr_byte.
  assert (H16 : Z.shiftr ch 16 = 0).
  { change 16 with (8 + 8). rewrite <- Z.shiftr_shiftr, H8 by lia.
    apply Z.shiftr_0_l. }
  assert (H24 : Z.shiftr ch 24 = 0).
  { change 24 with (16 + 8). rewrite <- Z.shiftr_shiftr, H16 by lia.
    apply Z.shiftr_0_l. }
  now rewrite !replaced_other by (assumption || reflexivity).
Qed.

(** X2: whatever the code, [FourCCWithAlpha] puts an 'A' and
    [FourCCWithoutAlpha] an 'X' in the place of the first character and keeps
    the other three. *)
Theorem FourCCToString_alpha fourcc :
  FourCCToString (FourCCWithAlpha fourcc)
  = String "A" (behead (FourCCToString fourcc))
  /\ FourCCToString (FourCCWithoutAlpha fourcc)
     = String "X" (behead (FourCCToString fourcc)).
Proof.
  split.
  - apply (FourCCToString_replaced fourcc 65). lia.
  - apply (FourCCToString_replaced fourcc 88). lia.
Qed.




(** ** GetResolutionInfo, further *)

Lemma gui_size_values limit mode :
  gui_size limit mode = (hdisplay mode, vdisplay mode)
  \/ (1920 < hdisplay mode /\ 1080 < vdisplay mode
      /\ 1 <= limit <= 4
      /\ (gui_size limit mode = (1280, 720)
          \/ gui_size limit mode = (1920, 1080))).
Proof.
  unfold gui_size.
  destruct (limit >? 0) eqn:Hl; [|now left].
  destruct (hdisplay mode >? 1920) eqn:Hw; [|now left].
  destruct (vdisplay mode >? 1080) eqn:Hh; [|now left].
  cbn [andb].
  destruct limit as [|[[[]|[]|]|[[]|[]|]|]|]; try (now left);
    try (right; repeat split; try lia; now (left + right));
    destruct (vrefresh mode >? 30);
    try (now left); right; repeat split; try lia; now (left + right).
Qed.

(** X4: the GUI size is the screen size, 1920x1080 or 1280x720, and never
    exceeds the screen in either direction; a limit outside 1..4 leaves the
    screen size, and so does a screen that is not larger than 1920x1080 in
    both directions. *)
Theorem GetResolutionInfo_gui_size_bounded `{PresentFlags} res limit mode :
  let out := GetResolutionInfo res limit mode in
  iScreenWidth out = hdisplay mode
  /\ iScreenHeight out = vdisplay mode
  /\ iWidth out <= iScreenWidth out
  /\ iHeight out <= iScreenHeight out
  /\ ((iWidth out, iHeight out) = (iScreenWidth out, iScreenHeight out)
      \/ (iWidth out, iHeight out) = (1920, 1080)
      \/ (iWidth out, iHeight out) = (1280, 720))
  /\ (limit < 1 \/ 4 < limit \/ hdisplay mode <= 1920 \/ vdisplay mode <= 1080 ->
      (iWidth out, iHeight out) = (iScreenWidth out, iScreenHeight out)).
Proof.
  cbn [GetResolutionInfo iWidth iHeight iScreenWidth iScreenHeight].
  split; [reflexivity|]. split; [reflexivity|].
  destruct (gui_size_values limit mode)
    as [E|(Hw & Hh & Hl & [E|E])]; rewrite E; cbn [fst snd];
    (split; [lia|]); (split; [lia|]); (split; [auto|]);
    try (intros _; reflexivity); intros; lia.
Qed.

Lemma subtitles_floor h :
  0 <= h <= 4320 -> subtitles h = 965 * h / 1000.
Proof.
  intros Hh. apply Z.eqb_eq.
  apply (forallb_range (fun h => subtitles h =? 965 * h / 1000) (Z.to_nat 4320));
    [vm_compute; reflexivity | lia].
Qed.

(** X5: for screens up to 4320 lines the subtitle offset is the integer part
    of 0.965 times the GUI height, a line inside the GUI. *)
Theorem GetResolutionInfo_subtitles `{PresentFlags} res limit mode :
  0 <= vdisplay mode <= 4320 ->
  let out := GetResolutionInfo res limit mode in
  iSubtitles out = 965 * iHeight out / 1000
  /\ 0 <= iSubtitles out <= iHeight out.
Proof.
  intros Hv. cbn [GetResolutionInfo iSubtitles iHeight].
  assert (Hh : 0 <= (gui_size limit mode).2 <= 4320).
  { destruct (gui_size_values limit mode) as [E|(_ & _ & _ & [E|E])];
      rewrite E; cbn [snd]; lia. }
  rewrite subtitles_floor by exact Hh. split; [reflexivity|].
  split; [apply Z.div_pos; lia|].
  apply Z.div_le_upper_bound; lia.
Qed.

Lemma GetResolutionInfo_subtitles_witness :
  iSubtitles (GetResolutionInfo (H := sample_flags) cleared_info 3
                (mode_2160p 60 594000 0)) = 1042.
Proof.
  apply (GetResolutionInfo_subtitles (H := sample_flags) cleared_info 3
           (mode_2160p 60 594000 0)).
  vm_compute. split; discriminate.
Defined.

(** ** FindPreferredMode, further *)

(** The mode selected before the loop only comes out of it when the loop
    selects nothing. *)
Lemma FindPreferredMode_loop_through rest i mode area :
  FindPreferredMode_loop rest i mode area
  = match FindPreferredMode_loop rest i None area with
    | Some r => Some r
    | None => mode
    end.
Proof.
  revert i mode area. induction rest as [|m rest IH]; intros i mode area.
  - reflexivity.
  - cbn [FindPreferredMode_loop].
    destruct (is_preferred m); [reflexivity|].
    destruct (current_area m >? area).
    + rewrite (IH (S i) (Some i)).
      destruct (FindPreferredMode_loop rest (S i) None (current_area m));
        reflexivity.
    + apply IH.
Qed.

(** What the loop selects is a mode of the list it scanned, preferred or
    larger than the area it started with. *)
Lemma FindPreferredMode_loop_member rest i area r :
  FindPreferredMode_loop rest i None area = Some r ->
  exists k m, r = (i + k)%nat /\ rest !! k = Some m
    /\ (is_preferred m = true \/ area < current_area m).
Proof.
  revert i area. induction rest as [|m rest IH]; intros i area; [discriminate|].
  cbn [FindPreferredMode_loop].
  destruct (is_preferred m) eqn:Hp.
  - intros Hr. injection Hr as <-. exists 0%nat, m.
    split; [lia|]. split; [reflexivity|now left].
  - destruct (current_area m >? area) eqn:Hgt.
    + rewrite FindPreferredMode_loop_through.
      destruct (FindPreferredMode_loop rest (S i) None (current_area m))
        as [r'|] eqn:E.
      * intros Hr. injection Hr as <-.
        apply IH in E as (k & m' & -> & Hk & Hm').
        exists (S k), m'. split; [lia|]. split; [exact Hk|].
        destruct Hm' as [Hm'|Hm']; [now left|right; lia].
      * intros Hr. injection Hr as <-. exists 0%nat, m.
        split; [lia|]. split; [reflexivity|right; lia].
    + intros Hr. apply IH in Hr as (k & m' & -> & Hk & Hm').
      exists (S k), m'. split; [lia|]. now split.
Qed.

(** X6: when the function, entered with no mode selected, succeeds, the
    selected mode is a mode of the connector's list that is preferred or has a
    positive area, and no other member changes. *)
Theorem FindPreferredMode_member this this' :
  m_mode this = None ->
  FindPreferredMode this = (true, this') ->
  exists i m,
    this' = set_m_mode this (Some i)
    /\ modes (m_connector this) !! i = Some m
    /\ (is_preferred m = true \/ 0 < current_area m).
Proof.
  intros Hm. unfold FindPreferredMode. rewrite Hm.
  destruct (FindPreferredMode_loop (modes (m_connector this)) 0 None 0)
    as [r|] eqn:E; [|discriminate].
  intros Hr. injection Hr as <-.
  apply FindPreferredMode_loop_member in E as (k & m & -> & Hk & Hm').
  exists k, m. now split.
Qed.

Lemma FindPreferredMode_member_witness :
  exists i m,
    set_m_mode (with_modes [raw_mode 1280 720 0; raw_mode 1920 1080 0])
      (Some 1%nat)
    = set_m_mode (with_modes [raw_mode 1280 720 0; raw_mode 1920 1080 0])
        (Some i)
    /\ [raw_mode 1280 720 0; raw_mode 1920 1080 0] !! i = Some m
    /\ (is_preferred m = true \/ 0 < current_area m).
Proof.
  apply (FindPreferredMode_member
           (with_modes [raw_mode 1280 720 0; raw_mode 1920 1080 0])
           (set_m_mode (with_modes [raw_mode 1280 720 0; raw_mode 1920 1080 0])
              (Some 1%nat))); reflexivity.
Defined.

(** X7: the function is idempotent, whatever mode was selected before; and
    once a mode is selected it cannot fail: a list without a preferred mode
    and without a mode of positive area keeps the earlier selection. *)
Theorem FindPreferredMode_again this :
  FindPreferredMode (FindPreferredMode this).2 = FindPreferredMode this
  /\ (forall i, m_mode this = Some i -> (FindPreferredMode this).1 = true)
  /\ (forall i,
        m_mode this = Some i ->
        Forall (fun m => is_preferred m = false /\ current_area m <= 0)
          (modes (m_connector this)) ->
        FindPreferredMode this = (true, this)).
Proof.
  split; [|split].
  - unfold FindPreferredMode.
    rewrite (FindPreferredMode_loop_through _ _ (m_mode this)).
    destruct (FindPreferredMode_loop (modes (m_connector this)) 0 None 0)
      as [r|] eqn:E.
    + cbn [snd set_m_mode m_connector m_mode].
      rewrite (FindPreferredMode_loop_through _ _ (Some r)), E.
      reflexivity.
    + destruct (m_mode this) as [j|] eqn:Hj.
      * cbn [snd set_m_mode m_connector m_mode].
        rewrite (FindPreferredMode_loop_through _ _ (Some j)), E.
        reflexivity.
      * cbn [snd set_m_mode m_connector m_mode]. rewrite E. reflexivity.
  - intros i Hi. unfold FindPreferredMode. rewrite Hi.
    rewrite (FindPreferredMode_loop_through _ _ (Some i)).
    now destruct (FindPreferredMode_loop (modes (m_connector this)) 0 None 0).
  - intros i Hi Hall. unfold FindPreferredMode.
    rewrite FindPreferredMode_loop_keeps by exact Hall.
    rewrite Hi. f_equal. destruct this. cbn in Hi. now subst.
Qed.

Lemma FindPreferredMode_again_witness :
  FindPreferredMode (set_m_mode (with_modes [raw_mode 0 1080 0]) (Some 7%nat))
  = (true, set_m_mode (with_modes [raw_mode 0 1080 0]) (Some 7%nat)).
Proof.
  apply (proj2 (proj2 (FindPreferredMode_again
           (set_m_mode (with_modes [raw_mode 0 1080 0]) (Some 7%nat))))
           7%nat eq_refl).
  repeat constructor. vm_compute. discriminate.
Defined.

(** ** FindPlanes, further *)









(** ** DrmFbGetFromBo and DrmFbDestroyCallback, further *)

Lemma DrmFbDestroyCallback_live b a w fb id :
  heap w !! a = Some fb -> fb_id fb = Some id ->
  DrmFbDestroyCallback b a w
  = Returns {| heap := delete a (heap w); calls := calls w ++ removal b id |}.
Proof.
  intros Hfb Hid. unfold DrmFbDestroyCallback, removal. rewrite Hfb, Hid.
  destruct (id >? 0); unfold delete_fb, request; cbn [heap calls];
    [reflexivity|now rewrite app_nil_r].
Qed.

Section BinderLifecycle.
Variable HAS_GBM_MODIFIERS : bool.
Variable driver : list drm_call -> drm_call -> option Z.

(** A registration that returns a framebuffer has stored the identity the
    driver gave, at an address that was free. *)
Lemma register_stored this b w a b' w' :
  register HAS_GBM_MODIFIERS driver this b w = Returns (Some a, b', w') ->
  exists gui id,
    m_gui_plane this = Some gui
    /\ a = new_drm_fb w
    /\ b' = gbm_bo_set_user_data b a DrmFbDestroyCallback_fn
    /\ heap w' = <[a := registered b gui id]> (heap w)
    /\ (driver (calls w)
          (AddFB2WithModifiers_call HAS_GBM_MODIFIERS (m_fd this)
             (GetFormat gui) b) = Some id
        \/ driver (calls w ++ [AddFB2WithModifiers_call HAS_GBM_MODIFIERS
                                 (m_fd this) (GetFormat gui) b])
             (AddFB2_call HAS_GBM_MODIFIERS (m_fd this) (GetFormat gui) b)
           = Some id).
Proof.
  destruct (m_gui_plane this) as [gui|] eqn:Hgui;
    [|unfold register; rewrite Hgui; discriminate].
  destruct (driver (calls w)
              (AddFB2WithModifiers_call HAS_GBM_MODIFIERS (m_fd this)
                 (GetFormat gui) b)) as [id|] eqn:Hd1.
  - rewrite (register_first _ _ this b w gui id Hgui Hd1).
    intros Hr. injection Hr as <- <- <-. exists gui, id. cbn [heap]. auto 10.
  - destruct (driver (calls w ++ [AddFB2WithModifiers_call HAS_GBM_MODIFIERS
                                    (m_fd this) (GetFormat gui) b])
                (AddFB2_call HAS_GBM_MODIFIERS (m_fd this) (GetFormat gui) b))
      as [id|] eqn:Hd2.
    + rewrite (register_second _ _ this b w gui id Hgui Hd1 Hd2).
      intros Hr. injection Hr as <- <- <-. exists gui, id. cbn [heap]. auto 10.
    + rewrite (register_neither _ _ this b w gui Hgui Hd1 Hd2). discriminate.
Qed.

(** X10: for a buffer that carries no framebuffer, a call that returns a
    framebuffer has attached it with the destroy callback; when the callback
    then runs it asks the driver to remove exactly the identity the driver had
    given (nothing when that identity is 0) and deletes the [drm_fb], which
    leaves the heap as it was before the call. *)
Theorem DrmFbGetFromBo_then_destroy this b w a b' w' :
  bo_user_data b = None ->
  DrmFbGetFromBo HAS_GBM_MODIFIERS driver this b w = Returns (Some a, b', w') ->
  exists gui id,
    m_gui_plane this = Some gui
    /\ heap w' !! a = Some (registered b gui id)
    /\ bo_user_data b' = Some a
    /\ bo_destroy b' = Some DrmFbDestroyCallback_fn
    /\ DrmFbDestroyCallback b' a w'
       = Returns {| heap := heap w; calls := calls w' ++ removal b id |}.
Proof.
  intros Hnone. unfold DrmFbGetFromBo.
  rewrite (lookup_cached_none this b w Hnone).
  intros Hr. apply register_stored in Hr as (gui & id & Hgui & -> & -> & Hh & _).
  exists gui, id. split; [exact Hgui|].
  assert (Hlive : heap w' !! new_drm_fb w = Some (registered b gui id))
    by (rewrite Hh; apply lookup_insert_eq).
  split; [exact Hlive|]. split; [reflexivity|]. split; [reflexivity|].
  rewrite (DrmFbDestroyCallback_live _ _ _ _ id Hlive eq_refl).
  rewrite Hh, delete_insert_id by apply new_drm_fb_fresh. reflexivity.
Qed.

(** X11: a cached framebuffer of another format than the GUI plane's is
    removed from the driver and deleted before anything is registered; when
    the registration then succeeds the buffer carries the new framebuffer, and
    the heap holds it in the place of the old one. *)
Theorem DrmFbGetFromBo_replaces_stale this b w a0 old id0 gui a b' w' :
  bo_user_data b = Some a0 ->
  heap w !! a0 = Some old ->
  fb_id old = Some id0 ->
  m_gui_plane this = Some gui ->
  GetFormat gui <> format old ->
  DrmFbGetFromBo HAS_GBM_MODIFIERS driver this b w = Returns (Some a, b', w') ->
  exists id more,
    calls w'
    = calls w ++ removal b id0
      ++ AddFB2WithModifiers_call HAS_GBM_MODIFIERS (m_fd this) (GetFormat gui) b
         :: more
    /\ heap w' = <[a := registered b gui id]> (delete a0 (heap w))
    /\ bo_user_data b' = Some a
    /\ (a = a0 \/ heap w' !! a0 = None).
Proof.
  intros Ha0 Hold Hid0 Hgui Hfmt. unfold DrmFbGetFromBo, lookup_cached.
  rewrite Ha0, Hgui, Hold. apply Z.eqb_neq in Hfmt. rewrite Hfmt.
  rewrite (DrmFbDestroyCallback_live b a0 w old id0 Hold Hid0).
  intros Hr.
  pose proof (register_requests _ _ _ _ _ gui _ _ _ Hgui Hr) as [more Hcalls].
  apply register_stored in Hr as (gui' & id & Hgui' & -> & -> & Hh & _).
  assert (gui' = gui) by congruence. subst gui'.
  cbn [heap calls] in Hcalls, Hh.
  exists id, more. split; [now rewrite Hcalls, <- app_assoc|].
  split; [exact Hh|]. split; [reflexivity|].
  set (a := new_drm_fb _).
  destruct (decide (a = a0)) as [E|E]; [now left|right].
  rewrite Hh, lookup_insert_ne by exact E. apply lookup_delete_eq.
Qed.

(** X12: when the cached framebuffer has another format and the driver
    refuses both requests, the function returns null after deleting the old
    [drm_fb], and the buffer still carries the pointer to it: the next call on
    that buffer reads the deleted [drm_fb]. *)
Theorem DrmFbGetFromBo_stale_dangling this b w a0 old id0 gui :
  bo_user_data b = Some a0 ->
  heap w !! a0 = Some old ->
  fb_id old = Some id0 ->
  m_gui_plane this = Some gui ->
  GetFormat gui <> format old ->
  let first :=
    AddFB2WithModifiers_call HAS_GBM_MODIFIERS (m_fd this) (GetFormat gui) b in
  let second := AddFB2_call HAS_GBM_MODIFIERS (m_fd this) (GetFormat gui) b in
  let w' := {| heap := delete a0 (heap w);
               calls := calls w ++ removal b id0 ++ [first; second] |} in
  driver (calls w ++ removal b id0) first = None ->
  driver (calls w ++ removal b id0 ++ [first]) second = None ->
  DrmFbGetFromBo HAS_GBM_MODIFIERS driver this b w = Returns (None, b, w')
  /\ DrmFbGetFromBo HAS_GBM_MODIFIERS driver this b w' = Undefined UseAfterFree.
Proof.
  intros Ha0 Hold Hid0 Hgui Hfmt first second w' Hd1 Hd2. split.
  - unfold DrmFbGetFromBo, lookup_cached.
    rewrite Ha0, Hgui, Hold. apply Z.eqb_neq in Hfmt. rewrite Hfmt.
    rewrite (DrmFbDestroyCallback_live b a0 w old id0 Hold Hid0).
    rewrite (register_neither _ _ this b _ gui Hgui); cbn [calls heap].
    + unfold w'. now rewrite <- !app_assoc.
    + exact Hd1.
    + now rewrite <- app_assoc.
  - unfold DrmFbGetFromBo, lookup_cached. rewrite Ha0, Hgui.
    unfold w'. cbn [heap]. now rewrite lookup_delete_eq.
Qed.
End BinderLifecycle.

Lemma DrmFbGetFromBo_then_destroy_witness :
  let gui := plane 33 2 [DRM_FORMAT_XRGB8888; DRM_FORMAT_ARGB8888] in
  let first :=
    AddFB2WithModifiers_call true 3 DRM_FORMAT_XRGB8888 plain_buffer in
  let fb := new_drm_fb empty_world in
  let b' := gbm_bo_set_user_data plain_buffer fb DrmFbDestroyCallback_fn in
  let w' := {| heap := <[fb := registered plain_buffer gui 5]>
                         (heap empty_world);
               calls := [first] |} in
  exists gui' id,
    m_gui_plane with_gui_plane = Some gui'
    /\ heap w' !! fb = Some (registered plain_buffer gui' id)
    /\ bo_user_data b' = Some fb
    /\ bo_destroy b' = Some DrmFbDestroyCallback_fn
    /\ DrmFbDestroyCallback b' fb w'
       = Returns {| heap := heap empty_world;
                    calls := calls w' ++ removal plain_buffer id |}.
Proof.
  intros gui first fb b' w'.
  apply (DrmFbGetFromBo_then_destroy true accepting with_gui_plane
           plain_buffer empty_world fb b' w'); reflexivity.
Defined.

Lemma DrmFbGetFromBo_replaces_stale_witness :
  let gui := plane 33 2 [DRM_FORMAT_XRGB8888; DRM_FORMAT_ARGB8888] in
  let first :=
    AddFB2WithModifiers_call true 3 DRM_FORMAT_XRGB8888 bound_buffer in
  let fb := new_drm_fb (delete_fb 1%positive stale_world) in
  let b' := gbm_bo_set_user_data bound_buffer fb DrmFbDestroyCallback_fn in
  let w' := {| heap := <[fb := registered bound_buffer gui 5]>
                         (delete 1%positive (heap stale_world));
               calls := [drmModeRmFB 3 5; first] |} in
  exists id more,
    calls w' = calls stale_world ++ removal bound_buffer 5 ++ first :: more
    /\ heap w' = <[fb := registered bound_buffer gui id]>
                   (delete 1%positive (heap stale_world))
    /\ bo_user_data b' = Some fb
    /\ (fb = 1%positive \/ heap w' !! 1%positive = None).
Proof.
  intros gui first fb b' w'.
  apply (DrmFbGetFromBo_replaces_stale true accepting with_gui_plane
           bound_buffer stale_world 1%positive
           {| bo := 4096; fb_id := Some 5; format := DRM_FORMAT_ARGB8888 |}
           5 gui fb b' w'); try reflexivity.
  vm_compute. discriminate.
Defined.

Lemma DrmFbGetFromBo_stale_dangling_witness :
  let first :=
    AddFB2WithModifiers_call true 3 DRM_FORMAT_XRGB8888 bound_buffer in
  let second := AddFB2_call true 3 DRM_FORMAT_XRGB8888 bound_buffer in
  let w' := {| heap := delete 1%positive (heap stale_world);
               calls := [drmModeRmFB 3 5; first; second] |} in
  DrmFbGetFromBo true refusing with_gui_plane bound_buffer stale_world
  = Returns (None, bound_buffer, w')
  /\ DrmFbGetFromBo true refusing with_gui_plane bound_buffer w'
     = Undefined UseAfterFree.
Proof.
  intros first second w'.
  apply (DrmFbGetFromBo_stale_dangling true refusing with_gui_plane
           bound_buffer stale_world 1%positive
           {| bo := 4096; fb_id := Some 5; format := DRM_FORMAT_ARGB8888 |}
           5 (plane 33 2 [DRM_FORMAT_XRGB8888; DRM_FORMAT_ARGB8888]));
    try reflexivity.
  vm_compute. discriminate.
Defined.

(** ** FindConnector, FindEncoder, FindCrtc *)

(** X13: [FindConnector] succeeds exactly when some listed connector is
    connected and has an encoder; it then selects the first such connector
    and changes nothing else, and on failure it changes nothing at all. *)
Theorem FindConnector_first_usable s :
  ((FindConnector s).1 = true <->
     exists c, c ∈ s_connectors s /\ usable_connector c = true)
  /\ (forall s', FindConnector s = (true, s') ->
        exists c,
          first_match usable_connector (s_connectors s) c
          /\ s' = set_topology s (Some c) (s_encoder s) (s_orig_crtc s))
  /\ (forall s', FindConnector s = (false, s') -> s' = s).
Proof.
  unfold FindConnector.
  destruct (s_connectors s !! find_if usable_connector (s_connectors s))
    as [c|] eqn:E.
  - split; [|split].
    + split; [|reflexivity]. intros _. exists c.
      split; [now apply list_elem_of_lookup_2 in E|now apply find_if_Some in E].
    + intros s' Hs. injection Hs as <-. exists c.
      split; [now apply find_if_first_match|reflexivity].
    + discriminate.
  - split; [|split].
    + split; [discriminate|]. intros (c & Hc & Hu).
      now rewrite (find_if_None _ _ E c Hc) in Hu.
    + discriminate.
    + intros s' Hs. now injection Hs as <-.
Qed.

(** X14: with a connector selected, [FindEncoder] succeeds exactly when a
    listed encoder has the identity the connector names, and selects the
    first such encoder; without a selected connector it reads through the
    null pointer as soon as there is an encoder to test. *)
Theorem FindEncoder_matches_connector s :
  (forall c,
     s_connector s = Some c ->
     (exists e,
        first_match (fun e => encoder_id e =? GetEncoderId c) (s_encoders s) e
        /\ encoder_id e = GetEncoderId c
        /\ FindEncoder s
           = Returns (true, set_topology s (Some c) (Some e) (s_orig_crtc s)))
     \/ ((forall e, e ∈ s_encoders s -> encoder_id e <> GetEncoderId c)
         /\ FindEncoder s = Returns (false, s)))
  /\ (s_connector s = None -> s_encoders s <> [] ->
      FindEncoder s = Undefined NullDeref)
  /\ (s_encoders s = [] -> FindEncoder s = Returns (false, s)).
Proof.
  unfold FindEncoder. split; [|split].
  - intros c Hc. rewrite Hc.
    destruct (s_encoders s !! find_if (fun e => encoder_id e =? GetEncoderId c)
                                (s_encoders s)) as [e|] eqn:E.
    + left. exists e. pose proof (find_if_Some _ _ _ E) as He.
      apply Z.eqb_eq in He. split; [now apply find_if_first_match|].
      split; [exact He|].
      destruct (s_encoders s); [discriminate|reflexivity].
    + right. split.
      * intros e He Heq. pose proof (find_if_None _ _ E e He) as Hn.
        cbv beta in Hn. apply Z.eqb_neq in Hn. contradiction.
      * destruct (s_encoders s); reflexivity.
  - intros Hc Hne. rewrite Hc. now destruct (s_encoders s).
  - intros ->. reflexivity.
Qed.

Lemma FindCrtc_loop_Some encoder crtcs i c :
  FindCrtc_loop encoder crtcs i = Some c ->
  exists k,
    crtcs !! k = Some c
    /\ has_bits (encoder_possible_crtcs encoder)
         (Z.shiftl 1 (Z.of_nat (i + k))) = true
    /\ crtc_id (crtc_of c) = encoder_crtc_id encoder.
Proof.
  revert i. induction crtcs as [|x crtcs IH]; intros i; [discriminate|].
  cbn [FindCrtc_loop].
  destruct (has_bits (encoder_possible_crtcs encoder)
              (Z.shiftl 1 (Z.of_nat i))) eqn:Hb.
  - destruct (crtc_id (crtc_of x) =? encoder_crtc_id encoder) eqn:Hid.
    + intros Hc. injection Hc as <-. exists 0%nat.
      rewrite Nat.add_0_r. apply Z.eqb_eq in Hid. auto.
    + intros Hc. apply IH in Hc as (k & Hk & Hbit & Hc).
      exists (S k). replace (i + S k)%nat with (S i + k)%nat by lia. auto.
  - intros Hc. apply IH in Hc as (k & Hk & Hbit & Hc).
    exists (S k). replace (i + S k)%nat with (S i + k)%nat by lia. auto.
Qed.

Lemma FindCrtc_loop_None encoder crtcs i :
  FindCrtc_loop encoder crtcs i = None ->
  forall k c,
    crtcs !! k = Some c ->
    has_bits (encoder_possible_crtcs encoder)
      (Z.shiftl 1 (Z.of_nat (i + k))) = true ->
    crtc_id (crtc_of c) <> encoder_crtc_id encoder.
Proof.
  revert i. induction crtcs as [|x crtcs IH]; intros i Hn k c Hk Hb;
    [discriminate|].
  cbn [FindCrtc_loop] in Hn. destruct k as [|k].
  - injection Hk as ->. rewrite Nat.add_0_r in Hb. rewrite Hb in Hn.
    destruct (crtc_id (crtc_of c) =? encoder_crtc_id encoder) eqn:Hid;
      [discriminate|now apply Z.eqb_neq].
  - replace (i + S k)%nat with (S i + k)%nat in Hb by lia.
    apply (IH (S i)) with (k := k); try assumption.
    destruct (has_bits (encoder_possible_crtcs encoder)
                (Z.shiftl 1 (Z.of_nat i))); [|exact Hn].
    now destruct (crtc_id (crtc_of x) =? encoder_crtc_id encoder).
Qed.

(** X15: with an encoder selected, [FindCrtc] records as original CRTC a
    listed CRTC that has the identity of the CRTC bound to the encoder and
    whose position is set in the encoder's mask; it fails, changing nothing,
    exactly when no listed CRTC is both. *)
Theorem FindCrtc_bound_crtc s e :
  s_encoder s = Some e ->
  (exists c k,
     s_crtcs s !! k = Some c
     /\ has_bits (encoder_possible_crtcs (encoder_of e))
          (Z.shiftl 1 (Z.of_nat k)) = true
     /\ crtc_id (crtc_of c) = encoder_crtc_id (encoder_of e)
     /\ FindCrtc s
        = Returns (true, set_topology s (s_connector s) (Some e) (Some c)))
  \/ ((forall k c,
         s_crtcs s !! k = Some c ->
         has_bits (encoder_possible_crtcs (encoder_of e))
           (Z.shiftl 1 (Z.of_nat k)) = true ->
         crtc_id (crtc_of c) <> encoder_crtc_id (encoder_of e))
      /\ FindCrtc s = Returns (false, s)).
Proof.
  intros He. unfold FindCrtc. rewrite He.
  destruct (FindCrtc_loop (encoder_of e) (s_crtcs s) 0) as [c|] eqn:E.
  - left. pose proof (FindCrtc_loop_Some _ _ _ _ E) as (k & Hk & Hb & Hid).
    exists c, k. cbn [Nat.add] in Hb. repeat (split; [assumption|]).
    destruct (s_crtcs s); [discriminate|reflexivity].
  - right. split.
    + intros k c Hk Hb. now apply (FindCrtc_loop_None _ _ _ E k c).
    + now destruct (s_crtcs s).
Qed.

Lemma FindCrtc_bound_crtc_witness :
  FindCrtc crtc_search
  = Returns (true, set_topology crtc_search None (Some sample_encoder)
                     (Some (crtc_on 41))).
Proof.
  destruct (FindCrtc_bound_crtc crtc_search sample_encoder eq_refl)
    as [(c & k & Hk & _ & Hid & Hr)|(Hnone & _)].
  - destruct k as [|[|k]]; cbn in Hk; try discriminate;
      injection Hk as <-; [discriminate Hid|exact Hr].
  - now destruct (Hnone 1%nat (crtc_on 41) eq_refl eq_refl).
Defined.

(** ** InitDrm *)








(** *** What a call leaves behind *)

Lemma set_topology_same s :
  set_topology s (s_connector s) (s_encoder s) (s_orig_crtc s) = s.
Proof. now destruct s. Qed.

Lemma FindConnector_frame s ok s' :
  FindConnector s = (ok, s') ->
  exists c,
    s' = set_topology s c (s_encoder s) (s_orig_crtc s)
    /\ (ok = true -> is_Some c).
Proof.
  unfold FindConnector.
  destruct (s_connectors s !! find_if usable_connector (s_connectors s))
    as [c|]; intros Hs; injection Hs as <- <-.
  - exists (Some c). split; [reflexivity|]. intros _. now exists c.
  - exists (s_connector s). split; [now rewrite set_topology_same|discriminate].
Qed.

Lemma FindEncoder_frame s ok s' :
  FindEncoder s = Returns (ok, s') ->
  exists e, s' = set_topology s (s_connector s) e (s_orig_crtc s).
Proof.
  unfold FindEncoder. destruct (s_encoders s) as [|e0 l] eqn:El.
  - intros Hs. injection Hs as <- <-. exists (s_encoder s).
    now rewrite set_topology_same.
  - destruct (s_connector s) as [c|] eqn:Ec; [|discriminate]. rewrite <- El.
    destruct (s_encoders s !! find_if (fun e => encoder_id e =? GetEncoderId c)
                                (s_encoders s)) as [e|];
      intros Hs; injection Hs as <- <-.
    + exists (Some e). reflexivity.
    + exists (s_encoder s). now rewrite <- Ec, set_topology_same.
Qed.

Lemma FindCrtc_frame s ok s' :
  FindCrtc s = Returns (ok, s') ->
  exists o,
    s' = set_topology s (s_connector s) (s_encoder s) o
    /\ (ok = false -> o = s_orig_crtc s)
    /\ (ok = true -> is_Some o).
Proof.
  unfold FindCrtc. destruct (s_crtcs s) as [|c0 l] eqn:El.
  - intros Hs. injection Hs as <- <-. exists (s_orig_crtc s).
    rewrite set_topology_same. split; [reflexivity|]. split; [auto|discriminate].
  - destruct (s_encoder s) as [e|] eqn:Ee; [|discriminate]. rewrite <- El.
    destruct (FindCrtc_loop (encoder_of e) (s_crtcs s) 0) as [c|];
      intros Hs; injection Hs as <- <-.
    + exists (Some c). split; [reflexivity|]. split; [discriminate|].
      intros _. now exists c.
    + exists (s_orig_crtc s). rewrite <- Ee, set_topology_same.
      split; [reflexivity|]. split; [auto|discriminate].
Qed.

Lemma resolve_planes_and_mode_frame drv s connector encoder ok s' :
  resolve_planes_and_mode drv s connector encoder = Returns (ok, s') ->
  exists c v g m, s' = set_selection s c v g m (s_width s) (s_height s).
Proof.
  unfold resolve_planes_and_mode.
  destruct (FindPlanes (utils_of s connector encoder)) as [[[|] u]|];
    try discriminate.
  - destruct (FindPreferredMode _) as [[|] u1];
      intros Hs; injection Hs as <- <-; unfold absorb; cbn; eauto.
  - intros Hs. injection Hs as <- <-. unfold absorb. eauto.
Qed.

(** The state in which a returning [InitDrm] leaves the object, in terms of
    the answers of the driver. *)
Lemma InitDrm_frame drv s ok s' :
  InitDrm drv s = Returns (ok, s') ->
  (ok = false /\ s' = s
   /\ (s_fd s < 0
       \/ set_client_cap drv DRM_CLIENT_CAP_UNIVERSAL_PLANES 1 <> 0
       \/ set_client_cap drv DRM_CLIENT_CAP_STEREO_3D 1 <> 0
       \/ get_resources drv = None))
  \/ exists connectors encoders crtcs planes c e o cr v g m,
       get_resources drv = Some (connectors, encoders, crtcs)
       /\ s' = set_selection
                 (set_topology
                    (set_objects s (s_connectors s ++ connectors)
                       (s_encoders s ++ encoders) (s_crtcs s ++ crtcs) planes)
                    c e o)
                 cr v g m (s_width s) (s_height s)
       /\ match get_plane_resources drv with
          | None => planes = s_planes s
          | Some listed => planes = map linear_fallback (s_planes s ++ listed)
          end
       /\ (o = s_orig_crtc s \/ is_Some c)
       /\ (ok = true -> is_Some o /\ is_Some c).
Proof.
  unfold InitDrm.
  destruct (s_fd s <? 0) eqn:Hfd.
  { intros Hs. injection Hs as <- <-. left. apply Z.ltb_lt in Hfd. auto. }
  destruct (set_client_cap drv DRM_CLIENT_CAP_UNIVERSAL_PLANES 1 =? 0) eqn:H1.
  2:{ intros Hs. injection Hs as <- <-. left. apply Z.eqb_neq in H1. auto. }
  destruct (set_client_cap drv DRM_CLIENT_CAP_STEREO_3D 1 =? 0) eqn:H2.
  2:{ intros Hs. injection Hs as <- <-. left. apply Z.eqb_neq in H2. auto 6. }
  cbn [negb].
  destruct (get_resources drv) as [[[connectors encoders] crtcs]|].
  2:{ intros Hs. injection Hs as <- <-. left. auto 7. }
  intros Hs. right. exists connectors, encoders, crtcs.
  destruct (get_plane_resources drv) as [listed|].
  2:{ injection Hs as <- <-.
      exists (s_planes s), (s_connector s), (s_encoder s), (s_orig_crtc s),
        (s_crtc s), (s_video_plane s), (s_gui_plane s), (s_mode s).
      split; [reflexivity|]. split; [reflexivity|]. split; [reflexivity|].
      split; [now left|discriminate]. }
  exists (map linear_fallback (s_planes s ++ listed)).
  revert Hs.
  match goal with |- context [FindConnector ?s] => set (s2 := s) end.
  destruct (FindConnector s2) as [ok3 s3] eqn:E3.
  apply FindConnector_frame in E3 as (c & -> & Hc).
  destruct ok3.
  2:{ intros Hs. injection Hs as <- <-.
      exists c, (s_encoder s), (s_orig_crtc s),
        (s_crtc s), (s_video_plane s), (s_gui_plane s), (s_mode s).
      split; [reflexivity|]. split; [reflexivity|]. split; [reflexivity|].
      split; [now left|discriminate]. }
  specialize (Hc eq_refl).
  match goal with |- context [FindEncoder ?s] => set (s3 := s) end.
  destruct (FindEncoder s3) as [[ok4 s4]|] eqn:E4; [|discriminate].
  apply FindEncoder_frame in E4 as (e & ->).
  destruct ok4.
  2:{ intros Hs. injection Hs as <- <-.
      exists c, e, (s_orig_crtc s),
        (s_crtc s), (s_video_plane s), (s_gui_plane s), (s_mode s).
      split; [reflexivity|]. split; [reflexivity|]. split; [reflexivity|].
      split; [now left|discriminate]. }
  match goal with |- context [FindCrtc ?s] => set (s4 := s) end.
  destruct (FindCrtc s4) as [[ok5 s5]|] eqn:E5; [|discriminate].
  apply FindCrtc_frame in E5 as (o & -> & Ho & Ho').
  destruct ok5.
  2:{ intros Hs. injection Hs as <- <-.
      exists c, e, o,
        (s_crtc s), (s_video_plane s), (s_gui_plane s), (s_mode s).
      split; [reflexivity|]. split; [reflexivity|]. split; [reflexivity|].
      split; [now right|discriminate]. }
  cbn [set_topology s_connector s_encoder].
  destruct c as [c|]; [|now destruct Hc]. destruct e as [e|]; [|discriminate].
  intros Hs. apply resolve_planes_and_mode_frame in Hs
    as (cr & v & g & m & ->).
  exists (Some c), (Some e), o, cr, v, g, m.
  split; [reflexivity|]. split; [reflexivity|]. split; [reflexivity|].
  split; [now right|]. intros _. split; [now apply Ho'|exact Hc].
Qed.





(** ** RestoreOriginalMode, DestroyDrm *)

(** X19: [DestroyDrm] is defined on whatever a returning [InitDrm] has made
    of an object in which nothing was listed or selected.  It resets the six selections, keeps
    the vectors, the descriptors and the mode pointer, and hands over the
    descriptors; when [InitDrm] had succeeded, it first puts the original
    CRTC back on the selected connector. *)
Theorem DestroyDrm_after_InitDrm drv drv' fd renderFd ok s :
  InitDrm drv (constructed fd renderFd) = Returns (ok, s) ->
  exists s' restore,
    DestroyDrm drv' s = Returns (s', restore ++ handover drv' s)
    /\ released s'
    /\ s_connectors s' = s_connectors s /\ s_encoders s' = s_encoders s
    /\ s_crtcs s' = s_crtcs s /\ s_planes s' = s_planes s
    /\ s_fd s' = fd /\ s_renderFd s' = s_renderFd s
    /\ s_mode s' = s_mode s
    /\ (ok = true ->
        exists o c,
          s_orig_crtc s = Some o /\ s_connector s = Some c
          /\ restore = [restoring fd o c])
    /\ (s_orig_crtc s = None -> restore = []).
Proof.
  intros Hr.
  assert (Hfd : s_fd s = fd).
  { apply InitDrm_frame in Hr
      as [(_ & -> & _)|
          (cs & es & crs & planes & c & e & o & cr & v & g & m
           & _ & -> & _ & _ & _)]; reflexivity. }
  assert (Hinv : s_orig_crtc s = None \/ is_Some (s_connector s)).
  { apply InitDrm_frame in Hr
      as [(_ & -> & _)|
          (cs & es & crs & planes & c & e & o & cr & v & g & m
           & _ & -> & _ & [->|Hc] & _)]; cbn; auto. }
  assert (Hok : ok = true ->
                exists o c, s_orig_crtc s = Some o /\ s_connector s = Some c).
  { intros ->. apply InitDrm_frame in Hr
      as [(Hf & _)|
          (cs & es & crs & planes & c & e & o & cr & v & g & m
           & _ & -> & _ & _ & Hs)]; [discriminate|].
    destruct (Hs eq_refl) as [[o' ->] [c' ->]]. cbn. eauto. }
  unfold DestroyDrm, RestoreOriginalMode, handover. rewrite Hfd.
  destruct (s_orig_crtc s) as [o|] eqn:Eo.
  - destruct Hinv as [Hn|[c Hc]]; [discriminate|]. rewrite Hc.
    eexists _, [restoring fd o c]. split; [reflexivity|].
    split; [now cbv|]. cbn.
    repeat (split; [first [reflexivity|exact Hfd]|]).
    split; [|discriminate]. intros _. now exists o, c.
  - eexists _, []. split; [reflexivity|].
    split; [now cbv|]. cbn.
    repeat (split; [first [reflexivity|exact Hfd]|]).
    split; [|reflexivity]. intros H. destruct (Hok H) as (o & c & Ho & _).
    discriminate.
Qed.

Lemma DestroyDrm_after_InitDrm_witness :
  exists s' restore,
    DestroyDrm (sample_driver [] 0 (0, 7)) sample_session
    = Returns (s', restore
                   ++ handover (sample_driver [] 0 (0, 7)) sample_session)
    /\ released s'
    /\ restore = [restoring 3 (crtc_on 41) (sample_connector 61)].
Proof.
  destruct (DestroyDrm_after_InitDrm
              (sample_driver (m_planes overlay_on_second) (-1) (0, 7))
              (sample_driver [] 0 (0, 7)) 3 (-1) true sample_session eq_refl)
    as (s' & restore & Hd & Hrel & _ & _ & _ & _ & _ & _ & _ & Hok & _).
  exists s', restore. split; [exact Hd|]. split; [exact Hrel|].
  destruct (Hok eq_refl) as (o & c & Ho & Hc & ->).
  injection Ho as <-. injection Hc as <-. reflexivity.
Defined.

(** X20: [DestroyDrm] reads the null [m_connector] exactly when an original
    CRTC is recorded without a connector.  When it returns, a second call is
    defined and changes nothing: it puts no mode back, and makes the
    hand-over requests again, closing both descriptors a second time, since
    the descriptors are not reset. *)
Theorem DestroyDrm_twice drv s :
  (forall f,
     DestroyDrm drv s = Undefined f <->
     f = NullDeref /\ is_Some (s_orig_crtc s) /\ s_connector s = None)
  /\ (forall s' calls,
        DestroyDrm drv s = Returns (s', calls) ->
        released s'
        /\ DestroyDrm drv s' = Returns (s', handover drv s)
        /\ exists restore, calls = restore ++ handover drv s).
Proof.
  unfold DestroyDrm, RestoreOriginalMode. split.
  - intros f. destruct (s_orig_crtc s) as [o|].
    + destruct (s_connector s) as [c|].
      * split; [discriminate|]. intros (_ & _ & H). discriminate.
      * split.
        -- intros H. injection H as <-. split; [reflexivity|].
           split; [now exists o|reflexivity].
        -- intros (-> & _ & _). reflexivity.
    + split; [discriminate|]. intros (_ & [o H] & _). discriminate.
  - intros s' calls.
    destruct (s_orig_crtc s) as [o|].
    + destruct (s_connector s) as [c|]; [|discriminate].
      intros H. injection H as <- <-. split; [now cbv|].
      split; [reflexivity|]. now eexists [_].
    + intros H. injection H as <- <-. split; [now cbv|].
      split; [reflexivity|]. now exists [].
Qed.

(** ** GetModes, SetMode *)

Lemma atoi_digits_uint d acc :
  atoi_digits (NilEmpty.string_of_uint d) (Z.of_nat acc)
  = Z.of_nat (Nat.of_uint_acc d acc).
Proof.
  revert acc.
  induction d; intros acc; cbn [NilEmpty.string_of_uint Nat.of_uint_acc];
    [reflexivity|..];
    cbn [atoi_digits];
    match goal with
    | |- context [digit_of ?c] =>
        let v := eval vm_compute in (digit_of c) in
        change (digit_of c) with v; cbv iota
    end;
    rewrite <- IHd; f_equal; rewrite Nat.tail_mul_spec; lia.
Qed.

Lemma atoi_to_string n : atoi (to_string n) = Z.of_nat n.
Proof.
  unfold to_string.
  rewrite <- (DecimalNat.Unsigned.of_to n) at 2.
  unfold Nat.of_uint.
  rewrite <- (atoi_digits_uint (Nat.to_uint n) 0).
  destruct (Nat.to_uint n); reflexivity.
Qed.

Lemma to_string_inj i j : to_string i = to_string j -> i = j.
Proof.
  intros Hs. apply Nat2Z.inj. now rewrite <- !atoi_to_string, Hs.
Qed.

Section ModesProperties.
Context `{PresentFlags}.
Variable res : RESOLUTION_INFO.
Variable limit : Z.
Variable CheckConnector : connector_object -> bool * connector_object.

Lemma GetModes_loop_lookup l i k :
  GetModes_loop res limit l i !! k
  = (fun mode => {| info := GetResolutionInfo res limit mode;
                    strId := to_string (i + k) |}) <$> l !! k.
Proof.
  revert i k. induction l as [|m l IH]; intros i [|k]; try reflexivity.
  - cbn. now rewrite Nat.add_0_r.
  - cbn. rewrite IH. now replace (S i + k)%nat with (i + S k)%nat by lia.
Qed.

Lemma GetModes_loop_length l i :
  length (GetModes_loop res limit l i) = length l.
Proof. revert i. induction l as [|m l IH]; intros i; cbn; [|rewrite IH]; easy. Qed.

(** X21: [GetModes] lists one entry per mode of the selected connector, in
    the order of the modes: entry [k] is the resolution of mode [k] and is
    identified by the decimal digits of [k], so [atoi] reads the position
    back and no two entries share an identifier.  Without a selected
    connector the null pointer is read. *)
Theorem GetModes_positions s :
  (s_connector s = None -> GetModes res limit s = Undefined NullDeref)
  /\ (forall c,
        s_connector s = Some c ->
        exists l,
          GetModes res limit s = Returns l
          /\ length l = length (modes (connector_of c))
          /\ (forall k r,
                l !! k = Some r <->
                exists mode,
                  modes (connector_of c) !! k = Some mode
                  /\ r = {| info := GetResolutionInfo res limit mode;
                            strId := to_string k |})
          /\ (forall k r, l !! k = Some r -> atoi (strId r) = Z.of_nat k)
          /\ (forall j k r r',
                l !! j = Some r -> l !! k = Some r' ->
                strId r = strId r' -> j = k)).
Proof.
  unfold GetModes. split; [now intros ->|]. intros c ->.
  eexists. split; [reflexivity|]. split; [apply GetModes_loop_length|].
  assert (Hl : forall k r,
             GetModes_loop res limit (modes (connector_of c)) 0 !! k = Some r <->
             exists mode,
               modes (connector_of c) !! k = Some mode
               /\ r = {| info := GetResolutionInfo res limit mode;
                         strId := to_string k |}).
  { intros k r. rewrite GetModes_loop_lookup. cbn [Nat.add].
    destruct (modes (connector_of c) !! k) as [mode|]; cbn.
    - split.
      + intros Hr. injection Hr as <-. now exists mode.
      + intros (mode' & Hm & ->). now injection Hm as ->.
    - split; [discriminate|]. now intros (mode' & Hm & _). }
  split; [exact Hl|]. split.
  - intros k r Hr. apply Hl in Hr as (mode & _ & ->). cbn.
    apply atoi_to_string.
  - intros j k r r' Hj Hk Heq.
    apply Hl in Hj as (m1 & _ & ->). apply Hl in Hk as (m2 & _ & ->).
    cbn in Heq. now apply to_string_inj.
Qed.

(** X22: an entry of [GetModes] given back to [SetMode] selects the mode it
    was made from, as long as the connector is found connected with its list
    of modes unchanged: [m_mode] becomes the position of the entry,
    [GetCurrentMode] on the mode at that position returns the resolution of
    the entry, and [m_width] and [m_height] become its GUI size. *)
Theorem SetMode_selects_listed s c c' l k r :
  s_connector s = Some c ->
  CheckConnector c = (true, c') ->
  modes (connector_of c') = modes (connector_of c) ->
  GetModes res limit s = Returns l ->
  l !! k = Some r ->
  exists mode s',
    SetMode CheckConnector s r = Returns (Done true s')
    /\ s_mode s' = Some k
    /\ modes (connector_of c') !! k = Some mode
    /\ GetCurrentMode res limit (modes (connector_of c') !! k)
       = Returns (info r)
    /\ s_width s' = (gui_size limit mode).1
    /\ s_height s' = (gui_size limit mode).2
    /\ s_connector s' = Some c'
    /\ s_crtc s' = s_crtc s /\ s_video_plane s' = s_video_plane s
    /\ s_gui_plane s' = s_gui_plane s.
Proof.
  intros Hc Hcheck Hmodes Hl Hk. unfold GetModes in Hl. rewrite Hc in Hl.
  injection Hl as <-. rewrite GetModes_loop_lookup in Hk. cbn [Nat.add] in Hk.
  destruct (modes (connector_of c) !! k) as [mode|] eqn:Em; [|discriminate].
  injection Hk as <-. exists mode.
  unfold SetMode. rewrite Hc, Hcheck. cbn [negb info strId].
  rewrite atoi_to_string, Hmodes.
  pose proof (lookup_lt_Some _ _ _ Em) as Hlt.
  replace (0 <=? Z.of_nat k) with true by (symmetry; apply Z.leb_le; lia).
  replace (Z.of_nat k <? Z.of_nat (length (modes (connector_of c))))
    with true by (symmetry; apply Z.ltb_lt; lia).
  cbn [andb]. rewrite Nat2Z.id. eexists. split; [reflexivity|].
  cbn. repeat (split; [first [reflexivity|exact Em|now rewrite Em]|]).
  reflexivity.
Qed.

End ModesProperties.

Lemma SetMode_selects_listed_witness :
  exists mode s',
    SetMode still_connected sample_session
      {| info := GetResolutionInfo (H := sample_flags) cleared_info 0
                   (raw_mode 1920 1080 DRM_MODE_TYPE_PREFERRED);
         strId := "1" |}
    = Returns (Done true s')
    /\ s_mode s' = Some 1%nat
    /\ modes (connector_of (sample_connector 61)) !! 1%nat = Some mode.
Proof.
  destruct (SetMode_selects_listed (H := sample_flags) cleared_info 0
              still_connected sample_session
              (sample_connector 61) (sample_connector 61) _ 1%nat _
              eq_refl eq_refl eq_refl eq_refl eq_refl)
    as (mode & s' & Hs & Hm & Hk & _).
  exists mode, s'. split; [exact Hs|]. split; [exact Hm|exact Hk].
Defined.


(** ** OpenDrm *)

Lemma try_node_rejected sys need path s calls :
  acceptable sys need path = false ->
  try_node sys need path s calls
  = Passed (set_fds s (open_node sys path) (s_renderFd s))
      (calls ++ [sys_close (s_fd s); sys_open path]).
Proof.
  unfold acceptable, try_node. cbn [set_fds s_fd].
  destruct (open_node sys path <? 0) eqn:Hfd; [reflexivity|].
  apply Z.ltb_ge in Hfd. apply Z.leb_le in Hfd. rewrite Hfd. cbn [andb].
  destruct need; cbn [negb orb]; [|discriminate].
  destruct (connectors_of sys (open_node sys path)) as [l|]; [|reflexivity].
  intros Hd. apply bool_decide_eq_false in Hd. destruct Hd. now exists l.
Qed.

Lemma try_node_accepted sys need path s calls :
  acceptable sys need path = true ->
  try_node sys need path s calls
  = Opened
      (set_fds s (open_node sys path)
         (render_fd sys (open_node sys path) (s_renderFd s)))
      (calls ++ [sys_close (s_fd s); sys_open path]
       ++ render_call sys (open_node sys path)).
Proof.
  unfold acceptable, try_node, render_fd, render_call.
  cbn [set_fds s_fd s_renderFd].
  intros Ha. apply andb_true_iff in Ha as [Hfd Hres].
  apply Z.leb_le in Hfd.
  replace (open_node sys path <? 0) with false
    by (symmetry; apply Z.ltb_ge; lia).
  assert (Hr : match render_node sys (open_node sys path) with
               | Some renderPath =>
                   Opened
                     (set_fds
                        (set_fds s (open_node sys path) (s_renderFd s))
                        (open_node sys path) (open_node sys renderPath))
                     ((calls ++ [sys_close (s_fd s); sys_open path])
                      ++ [sys_open renderPath])
               | None =>
                   Opened (set_fds s (open_node sys path) (s_renderFd s))
                     (calls ++ [sys_close (s_fd s); sys_open path])
               end
               = Opened
                   (set_fds s (open_node sys path)
                      match render_node sys (open_node sys path) with
                      | Some renderPath => open_node sys renderPath
                      | None => s_renderFd s
                      end)
                   (calls ++ [sys_close (s_fd s); sys_open path]
                    ++ match render_node sys (open_node sys path) with
                       | Some renderPath => [sys_open renderPath]
                       | None => []
                       end)).
  { destruct (render_node sys (open_node sys path)).
    - now rewrite <- app_assoc.
    - now rewrite app_nil_r. }
  destruct need; cbn [negb orb] in Hres; [|exact Hr].
  apply bool_decide_eq_true in Hres as [l Hl]. rewrite Hl. exact Hr.
Qed.

Lemma OpenDrm_nodes_paths sys need device count i s calls :
  OpenDrm_nodes sys need device count i s calls
  = try_nodes sys need
      (map (nodes device)
         (filter (fun i => has_bits (available_nodes device)
                             (Z.shiftl 1 (Z.of_nat i)) = true)
            (seq i count)))
      s calls.
Proof.
  revert i s calls. induction count as [|count IH]; intros i s calls;
    [reflexivity|].
  cbn [OpenDrm_nodes seq].
  destruct (has_bits (available_nodes device) (Z.shiftl 1 (Z.of_nat i)))
    eqn:Hb.
  - rewrite filter_cons_True by exact Hb. cbn [map try_nodes].
    destruct (try_node sys need (nodes device i) s calls); [reflexivity|].
    apply IH.
  - rewrite filter_cons_False by (rewrite Hb; discriminate). apply IH.
Qed.

Lemma try_nodes_app sys need paths1 paths2 s calls :
  try_nodes sys need (paths1 ++ paths2) s calls
  = match try_nodes sys need paths1 s calls with
    | Opened s' calls' => Opened s' calls'
    | Passed s' calls' => try_nodes sys need paths2 s' calls'
    end.
Proof.
  revert s calls. induction paths1 as [|p paths1 IH]; intros s calls;
    [reflexivity|].
  cbn [app try_nodes].
  destruct (try_node sys need p s calls); [reflexivity|apply IH].
Qed.

Lemma OpenDrm_devices_paths sys need devices s calls :
  OpenDrm_devices sys need (map Some devices) s calls
  = match try_nodes sys need (candidates devices) s calls with
    | Opened s' calls' => Returns (true, s', calls')
    | Passed s' calls' => Returns (false, s', calls')
    end.
Proof.
  revert s calls. induction devices as [|d devices IH]; intros s calls;
    [reflexivity|].
  cbn [map OpenDrm_devices candidates flat_map].
  rewrite try_nodes_app, OpenDrm_nodes_paths.
  fold (node_paths d).
  destruct (try_nodes sys need (node_paths d) s calls); [reflexivity|].
  apply IH.
Qed.

Lemma last_cons_default {A : Type} (l : list A) (x d : A) :
  List.last (x :: l) d = List.last l x.
Proof.
  revert x d. induction l as [|y l IH]; intros x d; [reflexivity|].
  change (List.last (x :: y :: l) d) with (List.last (y :: l) d).
  now rewrite (IH y d), (IH y x).
Qed.

(** The nodes tried in turn: the first acceptable one is opened, and every
    descriptor opened before it was closed again. *)
Lemma try_nodes_result sys need paths s calls :
  match try_nodes sys need paths s calls with
  | Opened s' calls' =>
      exists k path,
        paths !! k = Some path
        /\ acceptable sys need path = true
        /\ (forall j q, (j < k)%nat -> paths !! j = Some q ->
              acceptable sys need q = false)
        /\ s' = set_fds s (open_node sys path)
                  (render_fd sys (open_node sys path) (s_renderFd s))
        /\ calls' = calls ++ attempts sys (s_fd s) (take (S k) paths)
                    ++ render_call sys (open_node sys path)
  | Passed s' calls' =>
      (forall q, q ∈ paths -> acceptable sys need q = false)
      /\ s' = set_fds s (List.last (map (open_node sys) paths) (s_fd s))
                (s_renderFd s)
      /\ calls' = calls ++ attempts sys (s_fd s) paths
  end.
Proof.
  revert s calls. induction paths as [|p paths IH]; intros s calls.
  - cbn. split; [intros q Hq; inversion Hq|].
    split; [now destruct s|now rewrite app_nil_r].
  - cbn [try_nodes]. destruct (acceptable sys need p) eqn:Ha.
    + rewrite try_node_accepted by exact Ha.
      exists 0%nat, p. split; [reflexivity|]. split; [exact Ha|].
      split; [intros j q Hj; lia|]. split; reflexivity.
    + rewrite try_node_rejected by exact Ha.
      specialize (IH (set_fds s (open_node sys p) (s_renderFd s))
                    (calls ++ [sys_close (s_fd s); sys_open p])).
      destruct (try_nodes sys need paths _ _) as [s' calls'|s' calls'].
      * destruct IH as (k & path & Hk & Hp & Hbefore & -> & ->).
        exists (S k), path. split; [exact Hk|]. split; [exact Hp|].
        split.
        { intros [|j] q Hj Hq.
          - now injection Hq as <-.
          - apply (Hbefore j q); [lia|exact Hq]. }
        split; [reflexivity|].
        cbn [set_fds s_fd take attempts]. rewrite <- app_assoc. reflexivity.
      * destruct IH as (Hall & -> & ->).
        split.
        { intros q Hq. apply elem_of_cons in Hq as [->|Hq]; auto. }
        split.
        { cbn [set_fds s_fd s_renderFd map].
          now rewrite last_cons_default. }
        cbn [set_fds s_fd attempts]. rewrite <- app_assoc. reflexivity.
Qed.

Lemma device_vector_stored n stored :
  (Z.to_nat n <= length stored)%nat ->
  device_vector n stored = map Some (take (Z.to_nat n) stored).
Proof.
  intros Hlen. unfold device_vector.
  rewrite take_app_le by (now rewrite length_map).
  symmetry. apply (fmap_take Some).
Qed.

Lemma OpenDrm_stored sys need s ret stored :
  0 < device_count sys ->
  get_devices sys = (ret, stored) ->
  0 <= ret ->
  (Z.to_nat (device_count sys) <= length stored)%nat ->
  OpenDrm sys need s
  = match try_nodes sys need
            (candidates (take (Z.to_nat (device_count sys)) stored)) s [] with
    | Opened s' calls' => Returns (true, s', calls')
    | Passed s' calls' => Returns (false, s', calls')
    end.
Proof.
  intros Hn Hd Hret Hlen. unfold OpenDrm. rewrite Hd.
  replace (device_count sys <=? 0) with false
    by (symmetry; apply Z.leb_gt; lia).
  replace (ret <? 0) with false by (symmetry; apply Z.ltb_ge; lia).
  rewrite device_vector_stored by exact Hlen.
  apply OpenDrm_devices_paths.
Qed.

(** X24: when the second call stores all the devices the first one
    announced, [OpenDrm] returns, and it succeeds exactly when some available
    node can be opened and, if connectors are needed, lists its resources.
    It then holds the descriptor of the first such node, in the order of the
    devices and of their nodes, which is not negative, and [m_renderFd] is
    what opening its render node gave, if it has one. *)
Theorem OpenDrm_opens_first_acceptable sys need s ret stored :
  0 < device_count sys ->
  get_devices sys = (ret, stored) ->
  0 <= ret ->
  (Z.to_nat (device_count sys) <= length stored)%nat ->
  exists ok s' calls,
    OpenDrm sys need s = Returns (ok, s', calls)
    /\ (ok = true <->
        exists p,
          p ∈ candidates (take (Z.to_nat (device_count sys)) stored)
          /\ acceptable sys need p = true)
    /\ (ok = true ->
        exists p,
          first_match (acceptable sys need)
            (candidates (take (Z.to_nat (device_count sys)) stored)) p
          /\ s_fd s' = open_node sys p
          /\ 0 <= s_fd s'
          /\ s_renderFd s' = render_fd sys (s_fd s') (s_renderFd s)).
Proof.
  intros Hn Hd Hret Hlen. rewrite (OpenDrm_stored _ _ _ _ _ Hn Hd Hret Hlen).
  pose proof (try_nodes_result sys need
                (candidates (take (Z.to_nat (device_count sys)) stored)) s [])
    as Hr.
  destruct (try_nodes sys need _ s []) as [s' calls'|s' calls'].
  - destruct Hr as (k & p & Hk & Hp & Hbefore & -> & ->).
    eexists true, _, _. split; [reflexivity|]. split.
    + split; [|reflexivity]. intros _. exists p.
      split; [now apply list_elem_of_lookup_2 in Hk|exact Hp].
    + intros _. exists p. split; [now exists k|].
      cbn [set_fds s_fd s_renderFd]. split; [reflexivity|].
      split; [|reflexivity].
      unfold acceptable in Hp. apply andb_true_iff in Hp as [Hfd _].
      now apply Z.leb_le in Hfd.
  - destruct Hr as (Hall & -> & ->).
    eexists false, _, _. split; [reflexivity|]. split; [|discriminate].
    split; [discriminate|]. intros (p & Hp & Ha).
    now rewrite (Hall p Hp) in Ha.
Qed.

Lemma OpenDrm_opens_first_acceptable_witness :
  exists ok s' calls,
    OpenDrm (sample_system 2 5) true (constructed (-1) (-1))
    = Returns (ok, s', calls)
    /\ (ok = true <->
        exists p,
          p ∈ ["/dev/dri/card0"; "/dev/dri/renderD128"; "/dev/dri/card1"]%string
          /\ acceptable (sample_system 2 5) true p = true)
    /\ (ok = true ->
        exists p,
          first_match (acceptable (sample_system 2 5) true)
            ["/dev/dri/card0"; "/dev/dri/renderD128"; "/dev/dri/card1"]%string
            p
          /\ s_fd s' = open_node (sample_system 2 5) p
          /\ 0 <= s_fd s'
          /\ s_renderFd s' = render_fd (sample_system 2 5) (s_fd s') (-1)).
Proof.
  apply (OpenDrm_opens_first_acceptable (sample_system 2 5) true
           (constructed (-1) (-1)) 2 _ ltac:(reflexivity) eq_refl ltac:(lia)
           ltac:(cbn; lia)).
Defined.

(** X25: the descriptors are handled one at a time.  Before a node is
    opened, the descriptor held is closed, so [m_fd] is what the last
    [open] returned; a successful call then opens the render node, and a
    failed call has tried every node and returns with [m_fd] as the last
    attempt left it, closed by nothing, be it a valid descriptor or not.
    No other member changes. *)
Theorem OpenDrm_descriptor_discipline sys need s ret stored ok s' calls :
  0 < device_count sys ->
  get_devices sys = (ret, stored) ->
  0 <= ret ->
  (Z.to_nat (device_count sys) <= length stored)%nat ->
  OpenDrm sys need s = Returns (ok, s', calls) ->
  exists k,
    let paths := candidates (take (Z.to_nat (device_count sys)) stored) in
    let tried := take k paths in
    calls = attempts sys (s_fd s) tried
            ++ (if ok then render_call sys (s_fd s') else [])
    /\ s_fd s' = List.last (map (open_node sys) tried) (s_fd s)
    /\ s' = set_fds s (s_fd s') (s_renderFd s')
    /\ (ok = false -> tried = paths /\ s_renderFd s' = s_renderFd s).
Proof.
  intros Hn Hd Hret Hlen. rewrite (OpenDrm_stored _ _ _ _ _ Hn Hd Hret Hlen).
  pose proof (try_nodes_result sys need
                (candidates (take (Z.to_nat (device_count sys)) stored)) s [])
    as Hr.
  destruct (try_nodes sys need _ s []) as [s1 calls1|s1 calls1];
    intros Heq; injection Heq as <- <- <-.
  - destruct Hr as (k & p & Hk & Hp & Hbefore & -> & ->).
    exists (S k). cbn zeta. cbn [set_fds s_fd s_renderFd app].
    split; [reflexivity|]. split.
    + rewrite (take_S_r _ _ _ Hk), map_app. cbn [map].
      now rewrite last_last.
    + split; [reflexivity|discriminate].
  - destruct Hr as (Hall & -> & ->).
    exists (length (candidates (take (Z.to_nat (device_count sys)) stored))).
    cbn zeta. rewrite firstn_all. cbn [set_fds s_fd s_renderFd app].
    split; [now rewrite app_nil_r|]. split; [reflexivity|].
    split; [reflexivity|]. intros _. split; reflexivity.
Qed.

Lemma OpenDrm_descriptor_discipline_witness :
  exists s' calls,
    OpenDrm (sample_system 1 5) true (constructed 3 (-1))
    = Returns (false, s', calls)
    /\ calls = [sys_close 3; sys_open "/dev/dri/card0"; sys_close (-1);
                sys_open "/dev/dri/renderD128"]
    /\ s_fd s' = 4.
Proof.
  eexists _, _. split; [reflexivity|].
  destruct (OpenDrm_descriptor_discipline (sample_system 1 5) true
              (constructed 3 (-1)) 2 _ false _ _ ltac:(reflexivity) eq_refl
              ltac:(lia) ltac:(cbn; lia) eq_refl)
    as (k & Hcalls & Hfd & _ & Hall).
  destruct (Hall eq_refl) as [Htried _]. cbn zeta in Hcalls, Hfd.
  rewrite Htried in Hcalls, Hfd. split; [exact Hcalls|exact Hfd].
Defined.

Lemma try_node_need sys path s calls :
  (forall fd, 0 <= fd -> is_Some (connectors_of sys fd)) ->
  try_node sys true path s calls = try_node sys false path s calls.
Proof.
  intros Hres. unfold try_node. cbn [set_fds s_fd].
  destruct (open_node sys path <? 0) eqn:Hfd; [reflexivity|].
  apply Z.ltb_ge in Hfd. now destruct (Hres _ Hfd) as [l ->].
Qed.

Lemma OpenDrm_nodes_need sys device count i s calls :
  (forall fd, 0 <= fd -> is_Some (connectors_of sys fd)) ->
  OpenDrm_nodes sys true device count i s calls
  = OpenDrm_nodes sys false device count i s calls.
Proof.
  intros Hres. revert i s calls.
  induction count as [|count IH]; intros i s calls; [reflexivity|].
  cbn [OpenDrm_nodes]. rewrite try_node_need by exact Hres.
  destruct (has_bits _ _); [|apply IH].
  destruct (try_node sys false (nodes device i) s calls); [reflexivity|].
  apply IH.
Qed.

(** X26: asking for a connector does not make [OpenDrm] look for one that
    can be used: the scan of the connectors has no effect.  On a system
    that lists the resources of every descriptor it opens, whatever the
    state of the connectors, the call behaves as without the request. *)
Theorem OpenDrm_ignores_connection sys s :
  (forall fd, 0 <= fd -> is_Some (connectors_of sys fd)) ->
  OpenDrm sys true s = OpenDrm sys false s.
Proof.
  intros Hres. unfold OpenDrm.
  destruct (device_count sys <=? 0); [reflexivity|].
  destruct (get_devices sys) as [ret stored].
  destruct (ret <? 0); [reflexivity|].
  generalize (device_vector (device_count sys) stored) as devices.
  generalize (@nil descriptor_call) as calls. revert s.
  intros s calls devices. revert s calls.
  induction devices as [|[d|] devices IH]; intros s calls; try reflexivity.
  cbn [OpenDrm_devices]. rewrite OpenDrm_nodes_need by exact Hres.
  destruct (OpenDrm_nodes sys false d DRM_NODE_MAX 0 s calls);
    [reflexivity|apply IH].
Qed.

Lemma OpenDrm_devices_app sys need devices rest s calls :
  OpenDrm_devices sys need (map Some devices ++ rest) s calls
  = match try_nodes sys need (candidates devices) s calls with
    | Opened s' calls' => Returns (true, s', calls')
    | Passed s' calls' => OpenDrm_devices sys need rest s' calls'
    end.
Proof.
  revert s calls. induction devices as [|d devices IH]; intros s calls;
    [reflexivity|].
  cbn [map app OpenDrm_devices candidates flat_map].
  rewrite try_nodes_app, OpenDrm_nodes_paths.
  fold (node_paths d).
  destruct (try_nodes sys need (node_paths d) s calls); [reflexivity|].
  apply IH.
Qed.

(** X27: when the second call stores fewer devices than the first one
    announced, the rest of the vector is null; if no node of the stored
    devices is accepted, the loop reads the first null entry. *)
Theorem OpenDrm_reads_null_entry sys need s ret stored :
  get_devices sys = (ret, stored) ->
  0 <= ret ->
  (length stored < Z.to_nat (device_count sys))%nat ->
  (forall p, p ∈ candidates stored -> acceptable sys need p = false) ->
  OpenDrm sys need s = Undefined NullDeref.
Proof.
  intros Hd Hret Hlen Hall. unfold OpenDrm. rewrite Hd.
  replace (device_count sys <=? 0) with false
    by (symmetry; apply Z.leb_gt; lia).
  replace (ret <? 0) with false by (symmetry; apply Z.ltb_ge; lia).
  unfold device_vector.
  assert (Hv : exists rest,
             take (Z.to_nat (device_count sys))
               (map Some stored ++ replicate (Z.to_nat (device_count sys)) None)
             = map Some stored ++ None :: rest).
  { destruct (Z.to_nat (device_count sys)) as [|n] eqn:En; [lia|].
    exists (take (n - length stored) (replicate n None)).
    rewrite take_app_ge by (rewrite length_map; lia).
    rewrite length_map. f_equal.
    replace (S n - length stored)%nat with (S (n - length stored)) by lia.
    reflexivity. }
  destruct Hv as [rest ->]. rewrite OpenDrm_devices_app.
  pose proof (try_nodes_result sys need (candidates stored) s []) as Hr.
  destruct (try_nodes sys need (candidates stored) s []) as [s1 c1|s1 c1].
  - destruct Hr as (k & p & Hk & Hp & _).
    apply list_elem_of_lookup_2 in Hk. now rewrite (Hall p Hk) in Hp.
  - reflexivity.
Qed.

Lemma OpenDrm_reads_null_entry_witness :
  OpenDrm (sample_system 3 9) true (constructed 3 (-1)) = Undefined NullDeref.
Proof.
  apply (OpenDrm_reads_null_entry (sample_system 3 9) true (constructed 3 (-1))
           2 _ eq_refl); [lia|cbn; lia|].
  intros p Hp. cbn in Hp.
  repeat (apply elem_of_cons in Hp as [->|Hp]; [reflexivity|]).
  inversion Hp.
Defined.

Lemma OpenDrm_ignores_connection_witness :
  OpenDrm
    {| device_count := 2; get_devices := get_devices (sample_system 2 5);
       open_node := open_node (sample_system 2 5);
       connectors_of := fun _ => Some [sample_connector 0];
       render_node := render_node (sample_system 2 5) |}
    true (constructed 3 (-1))
  = Returns (true, set_fds (constructed 3 (-1)) 4 (-1),
             [sys_close 3; sys_open "/dev/dri/card0"; sys_close (-1);
              sys_open "/dev/dri/renderD128"]).
Proof.
  rewrite OpenDrm_ignores_connection; [reflexivity|].
  intros fd _. now eexists.
Defined.
